(** * Ecommerce backend: Sequelize models and their consistency rules

    A shallow embedding of the model layer of the shop backend
    (backend/models: Producto, Pedido, Carrito, Categoria, Subcategoria;
    backend/config/multer.js), followed by the properties of stock
    accounting, the order status, cancellation, the cart total, the
    cascading deactivation of the catalogue and the deletion of products.

    Conventions of the embedding.
    - A JavaScript method that may throw is a computation in the monad
      [Js.M S A = S -> Resultado A * S]: the state [S] is what the method
      can mutate (the instance [this], the tables it writes, the console),
      and a [Throw] keeps the state reached so far, because a JavaScript
      exception rolls nothing back.
    - A Sequelize instance is the pair of its [dataValues] and its
      [previousDataValues]; [changed] compares the two, [save] validates
      and writes the fields that changed and then makes both agree.
    - A table is the list of its rows; [findAll] is [filter], [findByPk]
      is [find], an UPDATE is a [map] over the rows with that key.
    - DECIMAL(10,2) columns are counted in hundredths, as integers.
    - Identifiers keep the names they have in the sources. *)

From Stdlib Require Import ZArith List String Ascii Bool Lia DecimalString.
Import ListNotations.
Open Scope string_scope.
Open Scope Z_scope.

(* ================================================================== *)
(** ** JavaScript values, exceptions and the state-and-exception monad *)
(* ================================================================== *)

Module Js.

Inductive Excepcion : Type :=
| Error (mensaje : string)
| ReferenceError (mensaje : string)
| SequelizeValidationError (mensaje : string)
| SequelizeDatabaseError (mensaje : string).

Definition message (e : Excepcion) : string :=
  match e with
  | Error m | ReferenceError m
  | SequelizeValidationError m | SequelizeDatabaseError m => m
  end.

Inductive Resultado (A : Type) : Type :=
| Ok (a : A)
| Throw (e : Excepcion).

Arguments Ok {A} a.
Arguments Throw {A} e.

Definition M (S A : Type) : Type := S -> Resultado A * S.

Definition ret {S A : Type} (a : A) : M S A := fun s => (Ok a, s).

Definition throw {S A : Type} (e : Excepcion) : M S A := fun s => (Throw e, s).

Definition bind {S A B : Type} (c : M S A) (k : A -> M S B) : M S B :=
  fun s =>
    match c s with
    | (Ok a, s') => k a s'
    | (Throw e, s') => (Throw e, s')
    end.

Definition get {S : Type} : M S S := fun s => (Ok s, s).

Definition modify {S : Type} (f : S -> S) : M S unit := fun s => (Ok tt, f s).

(** [try { c } catch (error) { h error }] *)
Definition try_catch {S A : Type} (c : M S A) (h : Excepcion -> M S A) : M S A :=
  fun s =>
    match c s with
    | (Ok a, s') => (Ok a, s')
    | (Throw e, s') => h e s'
    end.

(** [for (const x of xs) { cuerpo x }]: the first exception leaves the loop. *)
Fixpoint forOf {S A : Type} (xs : list A) (cuerpo : A -> M S unit) : M S unit :=
  match xs with
  | [] => ret tt
  | x :: xs' => bind (cuerpo x) (fun _ => forOf xs' cuerpo)
  end.

(** The values a condition is tested on here. A promise is an object, so it
    is truthy whether it is fulfilled or rejected. *)
Inductive Valor : Type :=
| VUndefined
| VBoolean (b : bool)
| VPromise (settled : Resultado unit).

Definition truthy (v : Valor) : bool :=
  match v with
  | VUndefined => false
  | VBoolean b => b
  | VPromise _ => true
  end.

(** [Array.prototype.includes] on an array of strings. *)
Definition includes (xs : list string) (x : string) : bool :=
  existsb (String.eqb x) xs.

(** A computation every run of which, returning or throwing, takes a
    state to one related to it by [R]. *)
Definition respeta {S A : Type} (R : S -> S -> Prop) (m : M S A) : Prop :=
  forall s, R s (snd (m s)).

End Js.

Import Js.

Declare Scope js_scope.
Delimit Scope js_scope with js.
Notation "x <- c ;; k" := (bind c (fun x => k))
  (at level 61, c at next level, right associativity) : js_scope.
Notation "c ;;; k" := (bind c (fun _ => k))
  (at level 61, right associativity) : js_scope.
Open Scope js_scope.

(* ================================================================== *)
(** ** backend/config/multer.js: deleteFile                            *)
(* ================================================================== *)

Module Multer.

(** The console: [console.log] and [console.error] lines, oldest first. *)
Inductive Consola : Type :=
| Log (linea : string)
| ErrorLog (linea : string).

Definition console_log {A : Type} (linea : string) (a : A) : M (list Consola) A :=
  fun out => (Ok a, (out ++ [Log linea])%list).

Definition console_error {A : Type} (linea : string) (a : A) : M (list Consola) A :=
  fun out => (Ok a, (out ++ [ErrorLog linea])%list).

(** What the file system answers for a path inside the [try] block:
    the file is there, it is not, or the call throws. *)
Inductive Respuesta : Type :=
| Existe
| NoExiste
| Falla (mensaje : string).

Definition SistemaDeArchivos : Type := string -> Respuesta.

(** [path.join(uploadPath, filename)] for a plain file name. *)
Definition join (dir filename : string) : string := dir ++ "/" ++ filename.

(** [deleteFile]: the body of the [try] asks whether the file exists and
    logs the answer (the source calls no [unlink], so the file system is
    only read); the [catch] logs the error and returns [false]. *)
Definition deleteFile (fs : SistemaDeArchivos) (uploadPath filename : string)
  : M (list Consola) bool :=
  try_catch
    (match fs (join uploadPath filename) with
     | Existe => console_log ("Archivo eliminado: " ++ filename) true
     | NoExiste => console_log ("Archivo no encontrado: " ++ filename) false
     | Falla m => throw (Error m)
     end)
    (fun error =>
       console_error ("Error al eliminar el archivo: " ++ message error) false).

End Multer.

(* ================================================================== *)
(** ** The Producto model (stock, image, destroy hook)                 *)
(* ================================================================== *)

Module Producto.

Record Fila : Type := mkFila {
  id : Z;
  precio : Z;
  stock : Z;
  imagen : option string;
  subcategoriaId : Z;
  categoriaId : Z;
  activo : bool
}.

Definition Tabla : Type := list Fila.

Record Instancia : Type := mkInstancia {
  dataValues : Fila;
  previousDataValues : Fila
}.

Definition con_stock (n : Z) (f : Fila) : Fila :=
  mkFila (id f) (precio f) n (imagen f) (subcategoriaId f) (categoriaId f) (activo f).

Definition con_activo (b : bool) (f : Fila) : Fila :=
  mkFila (id f) (precio f) (stock f) (imagen f) (subcategoriaId f) (categoriaId f) b.

Definition leida (f : Fila) : Instancia := mkInstancia f f.

Definition findByPk (k : Z) (t : Tabla) : option Instancia :=
  option_map leida (find (fun f => id f =? k) t).

(** [this.stock = n] *)
Definition set_stock (n : Z) (this : Instancia) : Instancia :=
  mkInstancia (con_stock n (dataValues this)) (previousDataValues this).

Definition changed_stock (this : Instancia) : bool :=
  negb (stock (dataValues this) =? stock (previousDataValues this)).

(** UPDATE productos SET stock = n WHERE id = k *)
Definition update_stock (k n : Z) (t : Tabla) : Tabla :=
  map (fun f => if id f =? k then con_stock n f else f) t.

(** [this.save()] for an instance whose only dirty column can be [stock]
    (the instance methods assign nothing else): the column is validated
    (isInt, min 0) and written when it changed. *)
Definition save : M (Instancia * Tabla) unit :=
  fun '(this, t) =>
    if changed_stock this then
      if stock (dataValues this) <? 0 then
        (Throw (SequelizeValidationError "El stock no puede ser negativo"), (this, t))
      else
        (Ok tt,
         (mkInstancia (dataValues this)
            (con_stock (stock (dataValues this)) (previousDataValues this)),
          update_stock (id (dataValues this)) (stock (dataValues this)) t))
    else (Ok tt, (this, t)).

(** [hayStock]: [this.stock += cantidad; return this.save();]. The promise
    of [save] is returned without being awaited; its write reaches the
    table all the same, and the caller receives the promise object. *)
Definition hayStock (cantidad : Z) : M (Instancia * Tabla) Valor :=
  fun '(this, t) =>
    let '(settled, s) :=
      save (set_stock (stock (dataValues this) + cantidad) this, t) in
    (Ok (VPromise settled), s).

(** [aumentarStock]: documented in the source as the method that reduces
    the stock after a sale, named as the one that increases it. *)
Definition aumentarStock (cantidad : Z) : M (Instancia * Tabla) unit :=
  hay <- hayStock cantidad ;;
  if truthy hay then throw (Error "Stock insuficiente")
  else
    modify (fun '(this, t) => (set_stock (stock (dataValues this) - cantidad) this, t)) ;;;
    save.

(** The [beforeDestroy] hook. An empty string is falsy, like [null]. *)
Definition beforeDestroy (fs : Multer.SistemaDeArchivos) (uploadPath : string)
  (producto : Fila) : M (list Multer.Consola) unit :=
  match imagen producto with
  | Some archivo =>
      if String.eqb archivo "" then ret tt
      else
        eliminado <- Multer.deleteFile fs uploadPath archivo ;;
        if eliminado then Multer.console_log ("Imagen eliminada: " ++ archivo) tt
        else ret tt
  | None => ret tt
  end.

(** [producto.destroy()]: the hook runs first, an exception of the hook
    stops the deletion; then DELETE FROM productos WHERE id = producto.id. *)
Definition destroy (fs : Multer.SistemaDeArchivos) (uploadPath : string)
  (producto : Fila) : M (Tabla * list Multer.Consola) unit :=
  fun '(t, out) =>
    match beforeDestroy fs uploadPath producto out with
    | (Ok _, out') => (Ok tt, (filter (fun f => negb (id f =? id producto)) t, out'))
    | (Throw e, out') => (Throw e, (t, out'))
    end.

(** Letter case apart: an ASCII capital becomes the small letter, every
    other character is itself (the [i] flag of a regular expression whose
    letters are ASCII). *)
Definition minuscula (c : ascii) : ascii :=
  let n := nat_of_ascii c in
  if ((65 <=? n) && (n <=? 90))%nat then ascii_of_nat (n + 32) else c.

Fixpoint minusculas (s : string) : string :=
  match s with
  | EmptyString => EmptyString
  | String c s' => String (minuscula c) (minusculas s')
  end.

(** [s] ends with [sufijo]. *)
Fixpoint termina_en (sufijo s : string) : bool :=
  String.eqb s sufijo
  || match s with
     | EmptyString => false
     | String _ s' => termina_en sufijo s'
     end.

(** The validator [is] of the column [imagen], the regular expression
    [/\. (jpg|jpeg|png|gif)$/i]: a dot, a space, one of the four
    extensions, the end of the name. *)
Definition imagen_valida (nombre : string) : bool :=
  existsb (fun ext => termina_en (". " ++ ext) (minusculas nombre))
    ["jpg"; "jpeg"; "png"; "gif"].

(** No stored stock is negative. *)
Definition sin_negativos (productos : Tabla) : Prop :=
  Forall (fun f => 0 <= stock f) productos.

(** The values an INTEGER column holds (32 bits, signed). Sums and
    differences of such values are exact as JavaScript numbers. *)
Definition en_columna (n : Z) : Prop := -2147483648 <= n <= 2147483647.

End Producto.

(* ================================================================== *)
(** ** Order lines (DetallePedido): read-only snapshots                *)
(* ================================================================== *)

Module DetallePedido.

Record Fila : Type := mkFila {
  pedidoId : Z;
  productoId : Z;
  cantidad : Z;
  precioUnitario : Z
}.

Definition Tabla : Type := list Fila.

End DetallePedido.

(* ================================================================== *)
(** ** backend/models/Pedido.js                                        *)
(* ================================================================== *)

Module Pedido.

Record Fila : Type := mkFila {
  id : Z;
  usuarioId : Z;
  total : Z;
  estado : string;
  direccionEnvio : string;
  telefono : string;
  notas : option string;
  fechaPago : option Z;
  fechaEnvio : option Z;
  fechaEntrega : option Z
}.

Record Instancia : Type := mkInstancia {
  dataValues : Fila;
  previousDataValues : Fila
}.

Definition con_estado (e : string) (f : Fila) : Fila :=
  mkFila (id f) (usuarioId f) (total f) e (direccionEnvio f) (telefono f)
    (notas f) (fechaPago f) (fechaEnvio f) (fechaEntrega f).

Definition con_fechaPago (d : option Z) (f : Fila) : Fila :=
  mkFila (id f) (usuarioId f) (total f) (estado f) (direccionEnvio f) (telefono f)
    (notas f) d (fechaEnvio f) (fechaEntrega f).

Definition con_fechaEnvio (d : option Z) (f : Fila) : Fila :=
  mkFila (id f) (usuarioId f) (total f) (estado f) (direccionEnvio f) (telefono f)
    (notas f) (fechaPago f) d (fechaEntrega f).

Definition con_fechaEntrega (d : option Z) (f : Fila) : Fila :=
  mkFila (id f) (usuarioId f) (total f) (estado f) (direccionEnvio f) (telefono f)
    (notas f) (fechaPago f) (fechaEnvio f) d.

(** An instance as [findByPk] returns it: nothing is dirty. *)
Definition leida (f : Fila) : Instancia := mkInstancia f f.

(** Assignments to the fields of the instance. *)
Definition asignar (g : Fila -> Fila) : M Instancia unit :=
  modify (fun this => mkInstancia (g (dataValues this)) (previousDataValues this)).

(** [pedido.changed('estado')] *)
Definition changed_estado (this : Instancia) : bool :=
  negb (String.eqb (estado (dataValues this)) (estado (previousDataValues this))).

(** The values of the ENUM column, which are also the [isIn] arguments. *)
Definition estados : list string := ["pendiente"; "pagado"; "enviado"; "cancelado"].

(** Validation of the fields being saved: [estado] has the only validator
    that an update of these instances can trip. *)
Definition validate : M Instancia unit :=
  fun this =>
    if changed_estado this && negb (includes estados (estado (dataValues this))) then
      (Throw (SequelizeValidationError
                "El estado debe ser pendiente, pagado, enviado o cancelado"), this)
    else (Ok tt, this).

(** The UPDATE of the changed columns; afterwards nothing is dirty. *)
Definition escribir : M Instancia unit :=
  modify (fun this => mkInstancia (dataValues this) (dataValues this)).

(** [pedido.save({hooks: false})] *)
Definition save_sin_hooks : M Instancia unit :=
  validate ;;; escribir.

(** The [beforeUpdate] hook; [ahora] is what [new Date()] returns. *)
Definition beforeUpdate (ahora : Z) : M Instancia unit :=
  (pedido <- get ;;
   if changed_estado pedido && String.eqb (estado (dataValues pedido)) "pagado" then
     asignar (con_fechaPago (Some ahora)) ;;; save_sin_hooks
   else ret tt) ;;;
  (pedido <- get ;;
   if changed_estado pedido && String.eqb (estado (dataValues pedido)) "enviado" then
     asignar (con_fechaEnvio (Some ahora)) ;;; save_sin_hooks
   else ret tt) ;;;
  (pedido <- get ;;
   if changed_estado pedido && String.eqb (estado (dataValues pedido)) "entregado" then
     asignar (con_fechaEntrega (Some ahora)) ;;; save_sin_hooks
   else ret tt).

(** [this.save()]: validation, then the hook, then the UPDATE. *)
Definition save (ahora : Z) : M Instancia unit :=
  validate ;;; beforeUpdate ahora ;;; escribir.

Definition estadosValidos : list string :=
  ["pendiente"; "pagado"; "enviado"; "cancelado"].

Definition cambiarEstado (ahora : Z) (nuevoEstado : string) : M Instancia unit :=
  if negb (includes estadosValidos nuevoEstado) then
    throw (Error "Estado no valido, debe ser pendiente, pagado, enviado o cancelado")
  else
    asignar (con_estado nuevoEstado) ;;; save ahora.

Definition puedeSerCancelado (this : Instancia) : bool :=
  includes ["pendiente"; "pagado"] (estado (dataValues this)).

(** One turn of the loop of [cancelar]: the product is looked up and, when
    it exists, [aumentarStock] is awaited on the instance just read. *)
Definition devolver (detalle : DetallePedido.Fila)
  : M (Instancia * Producto.Tabla) unit :=
  fun '(this, productos) =>
    match Producto.findByPk (DetallePedido.productoId detalle) productos with
    | Some producto =>
        let '(r, (_, productos')) :=
          Producto.aumentarStock (DetallePedido.cantidad detalle) (producto, productos) in
        (r, (this, productos'))
    | None => (Ok tt, (this, productos))
    end.

(** A method of the order run on the pair of the order and the products. *)
Definition en_pedido {A : Type} (c : M Instancia A) : M (Instancia * Producto.Tabla) A :=
  fun '(this, productos) => let '(r, this') := c this in (r, (this', productos)).

Definition cancelar (ahora : Z) (tabla_detalles : DetallePedido.Tabla)
  : M (Instancia * Producto.Tabla) unit :=
  this <- en_pedido get ;;
  if negb (puedeSerCancelado this) then
    throw (Error "No se puede cancelar este pedido")
  else
    let detalles :=
      filter (fun d => DetallePedido.pedidoId d =? id (dataValues this)) tabla_detalles in
    forOf detalles devolver ;;;
    en_pedido (asignar (con_estado "cancelado") ;;; save ahora).

(** The operations of this model that assign [estado]. *)
Inductive Operacion : Type :=
| CambiarEstado (nuevoEstado : string)
| Cancelar.

Definition ejecutar (ahora : Z) (tabla_detalles : DetallePedido.Tabla) (op : Operacion)
  : M (Instancia * Producto.Tabla) unit :=
  match op with
  | CambiarEstado nuevoEstado => en_pedido (cambiarEstado ahora nuevoEstado)
  | Cancelar => cancelar ahora tabla_detalles
  end.

(** A history of requests; a request that throws leaves what it had done
    and the next one runs on that. *)
Fixpoint historia (ahora : Z) (tabla_detalles : DetallePedido.Tabla)
  (ops : list Operacion) (s : Instancia * Producto.Tabla) : Instancia * Producto.Tabla :=
  match ops with
  | [] => s
  | op :: ops' =>
      historia ahora tabla_detalles ops' (snd (ejecutar ahora tabla_detalles op s))
  end.

(** What [save] keeps of the row it is called on. *)
Definition conserva (f g : Fila) : Prop :=
  estado g = estado f /\ fechaEntrega g = fechaEntrega f /\ id g = id f.

(** The invariant of an instance along a history: the status, in memory
    and as stored, is one of the four values of the column, and the
    delivery date is [d] in both. *)
Definition estable (d : option Z) (this : Instancia) : Prop :=
  includes estados (estado (dataValues this)) = true
  /\ includes estados (estado (previousDataValues this)) = true
  /\ fechaEntrega (dataValues this) = d
  /\ fechaEntrega (previousDataValues this) = d.

(** The columns no method of the model assigns: key, owner, total and
    the shipping data. *)
Definition inmutables (f : Fila) : Z * Z * Z * string * string * option string :=
  (id f, usuarioId f, total f, direccionEnvio f, telefono f, notas f).

(** A date column after one request served at the time [ahora]: what it
    was, or that time. *)
Definition fechada (ahora : Z) (antes despues : option Z) : Prop :=
  despues = antes \/ despues = Some ahora.

(** What the hook adds to a row whose status is one of the four values:
    the date of the status it changed into. *)
Definition sellar (ahora : Z) (cambio : bool) (f : Fila) : Fila :=
  if cambio && String.eqb (estado f) "pagado" then con_fechaPago (Some ahora) f
  else if cambio && String.eqb (estado f) "enviado" then con_fechaEnvio (Some ahora) f
  else f.

(** Whether the table has the product a line names. *)
Definition sin_producto (productos : Producto.Tabla) (d : DetallePedido.Fila) : bool :=
  match Producto.findByPk (DetallePedido.productoId d) productos with
  | Some _ => false
  | None => true
  end.

(** A history of requests, each served at its own time: every request
    reads the clock anew. A request that throws leaves what it had done
    and the next one runs on that. *)
Fixpoint historia_con_reloj (tabla_detalles : DetallePedido.Tabla)
  (ops : list (Z * Operacion)) (s : Instancia * Producto.Tabla)
  : Instancia * Producto.Tabla :=
  match ops with
  | [] => s
  | (ahora, op) :: ops' =>
      historia_con_reloj tabla_detalles ops' (snd (ejecutar ahora tabla_detalles op s))
  end.

(** A date column after requests served at the times [relojes]: what it
    was, or one of those times. *)
Definition fechada_en (relojes : list Z) (antes despues : option Z) : Prop :=
  despues = antes \/ exists ahora, In ahora relojes /\ despues = Some ahora.

(** Whether a date column holds a date. *)
Definition con_fecha (d : option Z) : bool :=
  match d with
  | Some _ => true
  | None => false
  end.

(** A row [f] of an order whose row was [d0] before requests served at
    the times [relojes]: the fixed columns are those of [d0], and each of
    the payment and shipping dates is the one of [d0] or one of those
    times. *)
Definition conservado (relojes : list Z) (d0 f : Fila) : Prop :=
  inmutables f = inmutables d0
  /\ fechada_en relojes (fechaPago d0) (fechaPago f)
  /\ fechada_en relojes (fechaEnvio d0) (fechaEnvio f).

(** The instance and its stored row are both as [conservado] says. *)
Definition ambos_conservados (relojes : list Z) (d0 : Fila) (this : Instancia) : Prop :=
  conservado relojes d0 (dataValues this)
  /\ conservado relojes d0 (previousDataValues this).

End Pedido.

(* ================================================================== *)
(** ** The Carrito model (second part of backend/models/Pedido.js)     *)
(* ================================================================== *)

Module Carrito.

Record Fila : Type := mkFila {
  id : Z;
  usuarioId : Z;
  productoId : Z;
  cantidad : Z;
  precioUnitario : Z
}.

Definition Tabla : Type := list Fila.

(** [parseFloat(this.precioUnitario) * this.cantidad], in hundredths. *)
Definition calcularSubtotal (this : Fila) : Z :=
  precioUnitario this * cantidad this.

(** [obtenerTotalCarrito] uses the identifier [total], which neither the
    function nor the module declares: it resolves to a property of the
    global object when there is one and is a ReferenceError otherwise.
    The state is that binding. *)
Definition Global : Type := option Z.

Definition leer_total : M Global Z :=
  fun g =>
    match g with
    | Some v => (Ok v, g)
    | None => (Throw (ReferenceError "total is not defined"), g)
    end.

Definition asignar_total (v : Z) : M Global unit :=
  fun _ => (Ok tt, Some v).

Definition obtenerTotalCarrito (tabla : Tabla) (usuario : Z) : M Global Z :=
  let items := filter (fun f => usuarioId f =? usuario) tabla in
  forOf items
    (fun item =>
       total <- leer_total ;;
       asignar_total (total + calcularSubtotal item)) ;;;
  leer_total.

(** [vaciarCarrito]: DELETE FROM carritos WHERE usuarioId = ?, returning
    the number of rows deleted. *)
Definition vaciarCarrito (usuario : Z) : M Tabla Z :=
  fun tabla =>
    (Ok (Z.of_nat (List.length (filter (fun f => usuarioId f =? usuario) tabla))),
     filter (fun f => negb (usuarioId f =? usuario)) tabla).

Record Instancia : Type := mkInstancia {
  dataValues : Fila;
  previousDataValues : Fila
}.

(** [itemCarrito.changed('cantidad')] *)
Definition changed_cantidad (this : Instancia) : bool :=
  negb (cantidad (dataValues this) =? cantidad (previousDataValues this)).

(** An integer inside a template literal. *)
Definition texto (n : Z) : string := NilZero.string_of_int (Z.to_int n).

(** The [beforeUpdate] hook of the cart line: when the quantity changed,
    the product is looked up and [hayStock] is asked for the new
    quantity; the answer is negated as a boolean. *)
Definition beforeUpdate (itemCarrito : Instancia) : M Producto.Tabla unit :=
  fun productos =>
    if changed_cantidad itemCarrito then
      match Producto.findByPk (productoId (dataValues itemCarrito)) productos with
      | None => (Throw (Error "El producto no existe"), productos)
      | Some producto =>
          let '(hay, (producto', productos')) :=
            Producto.hayStock (cantidad (dataValues itemCarrito)) (producto, productos) in
          match hay with
          | Ok v =>
              if negb (truthy v) then
                (Throw (Error ("Stock insuficiente, solo hay "
                               ++ texto (Producto.stock (Producto.dataValues producto'))
                               ++ " unidades disponibles")),
                 productos')
              else (Ok tt, productos')
          | Throw e => (Throw e, productos')
          end
      end
    else (Ok tt, productos).

End Carrito.

(* ================================================================== *)
(** ** The catalogue: categories, subcategories, products              *)
(* ================================================================== *)

(** The state the [afterUpdate] hooks work on: the three tables as the
    connection (or the transaction it was given) sees them, and the
    journal of the UPDATE statements issued, each with the transaction of
    its options. Committing or rolling a transaction back is the caller's
    business and no part of the models. *)
Module Catalogo.

Inductive NombreTabla : Type := Categorias | Subcategorias | Productos.

Record Escritura : Type := mkEscritura {
  tabla : NombreTabla;
  clave : Z;
  transaction : option Z
}.

Record FilaCategoria : Type := mkFilaCategoria {
  cat_id : Z;
  cat_activo : bool
}.

Record FilaSubcategoria : Type := mkFilaSubcategoria {
  sub_id : Z;
  sub_categoriaId : Z;
  sub_activo : bool
}.

Record t : Type := mk {
  categorias : list FilaCategoria;
  subcategorias : list FilaSubcategoria;
  productos : Producto.Tabla;
  diario : list Escritura
}.

(** The statements the storage refuses (a lost connection, a lock wait
    timeout, a constraint): nothing in the models decides this. *)
Definition Rechazo : Type := NombreTabla -> Z -> bool.

(** UPDATE categorias SET activo = b WHERE id = k *)
Definition escribir_categoria (k : Z) (b : bool) (c : t) : t :=
  mk (map (fun f => if cat_id f =? k then mkFilaCategoria (cat_id f) b else f)
        (categorias c))
     (subcategorias c) (productos c) (diario c).

(** UPDATE subcategorias SET activo = b WHERE id = k *)
Definition escribir_subcategoria (k : Z) (b : bool) (c : t) : t :=
  mk (categorias c)
     (map (fun f => if sub_id f =? k
                    then mkFilaSubcategoria (sub_id f) (sub_categoriaId f) b else f)
        (subcategorias c))
     (productos c) (diario c).

(** UPDATE productos SET activo = b WHERE id = k *)
Definition escribir_producto (k : Z) (b : bool) (c : t) : t :=
  mk (categorias c) (subcategorias c)
     (map (fun f => if Producto.id f =? k then Producto.con_activo b f else f)
        (productos c))
     (diario c).

Definition anotar (n : NombreTabla) (k : Z) (tx : option Z) (c : t) : t :=
  mk (categorias c) (subcategorias c) (productos c)
     (diario c ++ [mkEscritura n k tx])%list.

(** One UPDATE statement sent under [options.transaction]. *)
Definition consulta (rechaza : Rechazo) (tx : option Z) (n : NombreTabla) (k : Z)
  (efecto : t -> t) : M t unit :=
  fun c =>
    if rechaza n k then (Throw (SequelizeDatabaseError "UPDATE"), c)
    else (Ok tt, anotar n k tx (efecto c)).

(** [producto.update({ activo: valor }, { transaction })] on an instance
    read by [findAll]: nothing is sent when the value does not change.
    The Producto model has no update hook. *)
Definition producto_update (rechaza : Rechazo) (tx : option Z) (valor : bool)
  (producto : Producto.Fila) : M t unit :=
  if Bool.eqb (Producto.activo producto) valor then ret tt
  else consulta rechaza tx Productos (Producto.id producto)
         (escribir_producto (Producto.id producto) valor).

(** A product row after the UPDATEs that deactivate the keys [ks]. *)
Definition producto_tras (ks : list Z) (f : Producto.Fila) : Producto.Fila :=
  if existsb (Z.eqb (Producto.id f)) ks then Producto.con_activo false f else f.

(** A subcategory row after the UPDATEs that deactivate the keys [ks]. *)
Definition subcategoria_tras (ks : list Z) (f : FilaSubcategoria) : FilaSubcategoria :=
  if existsb (Z.eqb (sub_id f)) ks
  then mkFilaSubcategoria (sub_id f) (sub_categoriaId f) false else f.

(** The keys of the rows of a [findAll] result that an update to
    [activo = false] changes. *)
Definition claves_activas (l : list Producto.Fila) : list Z :=
  map Producto.id (filter Producto.activo l).

Definition subclaves_activas (l : list FilaSubcategoria) : list Z :=
  map sub_id (filter sub_activo l).

(** Every statement of the journal was sent under [tx]. *)
Definition todas_bajo (tx : option Z) (es : list Escritura) : Prop :=
  Forall (fun e => transaction e = tx) es.

(** [c'] is [c] after some more statements, all sent under [tx]. *)
Definition extiende (tx : option Z) (c c' : t) : Prop :=
  exists nuevas, diario c' = (diario c ++ nuevas)%list /\ todas_bajo tx nuevas.

(** A computation that sends its statements under [tx], whether it
    returns or throws. *)
Definition bajo_transaccion {A : Type} (tx : option Z) (m : M t A) : Prop :=
  forall c, extiende tx c (snd (m c)).

(** A row is as it was, or the same row with [activo = false]. *)
Definition categoria_apagada (f f' : FilaCategoria) : Prop :=
  f' = f \/ f' = mkFilaCategoria (cat_id f) false.

Definition subcategoria_apagada (f f' : FilaSubcategoria) : Prop :=
  f' = f \/ f' = mkFilaSubcategoria (sub_id f) (sub_categoriaId f) false.

Definition producto_apagado (f f' : Producto.Fila) : Prop :=
  f' = f \/ f' = Producto.con_activo false f.

(** [c'] has the rows of [c], in the same places, each as it was or
    deactivated. *)
Definition solo_apaga (c c' : t) : Prop :=
  Forall2 categoria_apagada (categorias c) (categorias c')
  /\ Forall2 subcategoria_apagada (subcategorias c) (subcategorias c')
  /\ Forall2 producto_apagado (productos c) (productos c').

(** The hooks write no category. *)
Definition mismas_categorias (c c' : t) : Prop := categorias c' = categorias c.

End Catalogo.

(** The Subcategoria model (the file stored as backend/models/Producto.js). *)
Module Subcategoria.

Import Catalogo.

Record Instancia : Type := mkInstancia {
  dataValues : FilaSubcategoria;
  previousDataValues : FilaSubcategoria
}.

Definition changed_activo (this : Instancia) : bool :=
  negb (Bool.eqb (sub_activo (dataValues this)) (sub_activo (previousDataValues this))).

(** The [afterUpdate] hook; it runs before [previousDataValues] is
    refreshed, so [changed('activo')] still tells what the update did. *)
Definition afterUpdate (rechaza : Rechazo) (tx : option Z) (subcategoria : Instancia)
  : M t unit :=
  if changed_activo subcategoria && negb (sub_activo (dataValues subcategoria)) then
    try_catch
      (c <- get ;;
       let productos :=
         filter (fun p => Producto.subcategoriaId p =? sub_id (dataValues subcategoria))
           (productos c) in
       forOf productos (producto_update rechaza tx false))
      (fun error => throw error)
  else ret tt.

(** [subcategoria.update({ activo: valor }, { transaction })] on an
    instance read by [findAll]. *)
Definition update (rechaza : Rechazo) (tx : option Z) (valor : bool)
  (leida : FilaSubcategoria) : M t unit :=
  let this :=
    mkInstancia (mkFilaSubcategoria (sub_id leida) (sub_categoriaId leida) valor) leida in
  if changed_activo this then
    consulta rechaza tx Subcategorias (sub_id leida)
      (escribir_subcategoria (sub_id leida) valor) ;;;
    afterUpdate rechaza tx this
  else ret tt.

(** The [beforeCreate] hook: the parent category is looked up by key. The
    lookup carries no transaction, so the tables it is run on are the
    committed ones. *)
Definition beforeCreate (subcategoria : FilaSubcategoria) : M t unit :=
  fun c =>
    match find (fun f => cat_id f =? sub_categoriaId subcategoria) (categorias c) with
    | None => (Throw (Error "La categoria seleccionada no existe"), c)
    | Some categoria =>
        if negb (cat_activo categoria) then
          (Throw (Error "No se puede crear una subcategoria para una categoria inactiva"), c)
        else (Ok tt, c)
    end.

End Subcategoria.

(** backend/models/Categoria.js *)
Module Categoria.

Import Catalogo.

Record Instancia : Type := mkInstancia {
  dataValues : FilaCategoria;
  previousDataValues : FilaCategoria
}.

Definition changed_activo (this : Instancia) : bool :=
  negb (Bool.eqb (cat_activo (dataValues this)) (cat_activo (previousDataValues this))).

Definition afterUpdate (rechaza : Rechazo) (tx : option Z) (categoria : Instancia)
  : M t unit :=
  if changed_activo categoria && negb (cat_activo (dataValues categoria)) then
    try_catch
      (c <- get ;;
       let subcategorias :=
         filter (fun s => sub_categoriaId s =? cat_id (dataValues categoria))
           (subcategorias c) in
       forOf subcategorias (Subcategoria.update rechaza tx false) ;;;
       c' <- get ;;
       let productos :=
         filter (fun p => Producto.categoriaId p =? cat_id (dataValues categoria))
           (productos c') in
       forOf productos (producto_update rechaza tx false))
      (fun error => throw error)
  else ret tt.

(** [categoria.update({ activo: valor }, { transaction })]: the request
    that deactivates (or reactivates) a category. *)
Definition update (rechaza : Rechazo) (tx : option Z) (valor : bool)
  (leida : FilaCategoria) : M t unit :=
  let this := mkInstancia (mkFilaCategoria (cat_id leida) valor) leida in
  if changed_activo this then
    consulta rechaza tx Categorias (cat_id leida)
      (escribir_categoria (cat_id leida) valor) ;;;
    afterUpdate rechaza tx this
  else ret tt.

(** [getSubcategorias]: [Subcategoria.count] of the rows with the key of
    this category. *)
Definition getSubcategorias (this : FilaCategoria) (c : t) : Z :=
  Z.of_nat (List.length (filter (fun s => sub_categoriaId s =? cat_id this) (subcategorias c))).

(** [getProductos]: [Producto.count] of the rows with the key of this
    category. *)
Definition getProductos (this : FilaCategoria) (c : t) : Z :=
  Z.of_nat (List.length (filter (fun p => Producto.categoriaId p =? cat_id this) (productos c))).

End Categoria.

(* ================================================================== *)
(** ** Checkout                                                        *)
(* ================================================================== *)

Module Checkout.







End Checkout.

(* ================================================================== *)
(** ** The order status the specification describes                    *)
(* ================================================================== *)

Module Especificacion.

(** The transitions the specification allows, on the status names of the
    code ([entregado] is its delivered):
    pendiente -> pagado -> enviado -> entregado, and pendiente or pagado
    -> cancelado. Used only to compare [cambiarEstado] with it. *)
Definition transicion_permitida (desde hacia : string) : bool :=
  (String.eqb desde "pendiente" && String.eqb hacia "pagado")
  || (String.eqb desde "pagado" && String.eqb hacia "enviado")
  || (String.eqb desde "enviado" && String.eqb hacia "entregado")
  || (String.eqb desde "pendiente" && String.eqb hacia "cancelado")
  || (String.eqb desde "pagado" && String.eqb hacia "cancelado").

End Especificacion.

(* ================================================================== *)
(** ** backend/config/jwt.js: extractToken                             *)
(* ================================================================== *)

Module Jwt.

(** [s.startsWith(prefijo)] *)
Definition startsWith (prefijo s : string) : bool := String.prefix prefijo s.

(** [s.substring(n)]: what follows the first [n] characters. *)
Fixpoint substring (n : nat) (s : string) : string :=
  match n, s with
  | O, _ => s
  | S n', String _ s' => substring n' s'
  | S _, EmptyString => EmptyString
  end.

(** [extractToken]: the header is a string or is missing ([None]); the
    empty string is falsy. *)
Definition extractToken (tokenHeader : option string) : option string :=
  match tokenHeader with
  | Some h =>
      if negb (String.eqb h "") && startsWith "Bearer " h
      then Some (substring 7 h)
      else None
  | None => None
  end.

End Jwt.

(* ================================================================== *)
(** ** Sample rows for the concrete runs                               *)
(* ================================================================== *)

Module Muestras.

(** Product 1: 9.99, five units, no image, subcategory 10 of category 1. *)
Definition producto_5 : Producto.Fila :=
  Producto.mkFila 1 999 5 None 10 1 true.

(** Product 2 of the same subcategory, with an image. *)
Definition producto_foto : Producto.Fila :=
  Producto.mkFila 2 450 3 (Some "foto.jpg") 10 1 true.

(** Order 1 of user 7 in the given status. *)
Definition pedido_en (e : string) : Pedido.Fila :=
  Pedido.mkFila 1 7 1998 e "Calle 1" "555" None None None None.

(** The only line of order 1: two units of product 1. *)
Definition detalle_1 : DetallePedido.Fila :=
  DetallePedido.mkFila 1 1 2 999.

(** A catalogue: categories 1 and 2; subcategories 10 and 11 of category
    1 and 20 of category 2; products 1 and 2 under 10, product 3 under 20. *)
Definition producto_otro : Producto.Fila :=
  Producto.mkFila 3 100 8 None 20 2 true.

Definition categoria_1 : Catalogo.FilaCategoria := Catalogo.mkFilaCategoria 1 true.

Definition catalogo_1 : Catalogo.t :=
  Catalogo.mk
    [categoria_1; Catalogo.mkFilaCategoria 2 true]
    [Catalogo.mkFilaSubcategoria 10 1 true;
     Catalogo.mkFilaSubcategoria 11 1 true;
     Catalogo.mkFilaSubcategoria 20 2 true]
    [producto_5; producto_foto; producto_otro]
    [].

(** A storage that accepts every statement. *)
Definition acepta_todo : Catalogo.Rechazo := fun _ _ => false.

(** A storage that refuses the UPDATE of subcategory 11. *)
Definition rechaza_sub_11 : Catalogo.Rechazo :=
  fun n k =>
    match n with
    | Catalogo.Subcategorias => k =? 11
    | _ => false
    end.

(** The clock reading used for [new Date()]. *)
Definition ahora : Z := 1700000000.



End Muestras.

(* ================================================================== *)
(** * Properties                                                       *)
(* ================================================================== *)

(** ** Stock accounting of Producto *)

Section StockDeProducto.

Import Producto.

Variable cantidad : Z.
Variable this : Instancia.
Variable t : Tabla.

(** [hayStock] never throws and always hands back a promise. *)
Lemma hayStock_returns_promise :
  exists settled,
    hayStock cantidad (this, t)
    = (Ok (VPromise settled), snd (hayStock cantidad (this, t))).
Proof.
  unfold hayStock.
  destruct (save (set_stock (stock (dataValues this) + cantidad) this, t)) as [settled s].
  now exists settled.
Qed.

Lemma save_keeps_dataValues (i : Instancia) (tb : Tabla) :
  dataValues (fst (snd (save (i, tb)))) = dataValues i.
Proof.
  unfold save.
  destruct (changed_stock i); [destruct (stock (dataValues i) <? 0) |]; reflexivity.
Qed.

(** [hayStock] adds the quantity to the stock of the instance. *)
Lemma hayStock_adds_to_stock :
  stock (dataValues (fst (snd (hayStock cantidad (this, t)))))
  = stock (dataValues this) + cantidad.
Proof.
  unfold hayStock.
  pose proof (save_keeps_dataValues
                (set_stock (stock (dataValues this) + cantidad) this) t) as H.
  destruct (save (set_stock (stock (dataValues this) + cantidad) this, t)) as [settled s].
  simpl in *. now rewrite H.
Qed.

(** The test of [aumentarStock] is on a promise, so the method always
    takes the branch that throws, in the state [hayStock] left. *)
Lemma aumentarStock_run :
  aumentarStock cantidad (this, t)
  = (Throw (Error "Stock insuficiente"), snd (hayStock cantidad (this, t))).
Proof.
  destruct hayStock_returns_promise as [settled Hh].
  unfold aumentarStock, bind. rewrite Hh. reflexivity.
Qed.

(** The validator of the column ([min: 0]) keeps every stored stock
    non-negative, whatever the methods do to the instance. *)
Lemma save_keeps_stored_stock_nonnegative (i : Instancia) (tb : Tabla) :
  Forall (fun f => 0 <= stock f) tb ->
  Forall (fun f => 0 <= stock f) (snd (snd (save (i, tb)))).
Proof.
  intros H. unfold save.
  destruct (changed_stock i); [| exact H].
  destruct (stock (dataValues i) <? 0) eqn:E; [exact H |].
  apply Z.ltb_ge in E. simpl. unfold update_stock.
  apply Forall_forall. intros f Hf. apply in_map_iff in Hf.
  destruct Hf as (f0 & <- & Hf0).
  destruct (id f0 =? id (dataValues i)); simpl; [exact E |].
  revert f0 Hf0. now apply Forall_forall.
Qed.

Lemma hayStock_keeps_stored_stock_nonnegative :
  Forall (fun f => 0 <= stock f) t ->
  Forall (fun f => 0 <= stock f) (snd (snd (hayStock cantidad (this, t)))).
Proof.
  intros H. unfold hayStock.
  pose proof (save_keeps_stored_stock_nonnegative
                (set_stock (stock (dataValues this) + cantidad) this) t H) as K.
  destruct (save (set_stock (stock (dataValues this) + cantidad) this, t)) as [settled s].
  exact K.
Qed.

End StockDeProducto.

(** C3. [hayStock] is documented as the check "is there stock for this
    quantity" returning a boolean. On a product with stock 5 asked for 7
    units it answers with a truthy promise instead of [false], and both
    the instance and the stored row end with stock 12. *)
Theorem hayStock_mutates_and_is_truthy :
  Producto.hayStock 7 (Producto.leida Muestras.producto_5, [Muestras.producto_5])
  = (Ok (VPromise (Ok tt)),
     (Producto.leida (Producto.con_stock 12 Muestras.producto_5),
      [Producto.con_stock 12 Muestras.producto_5]))
  /\ truthy (VPromise (Ok tt)) = true.
Proof. split; reflexivity. Qed.

(** C2. The method the source documents as the one that reduces the stock
    after a sale. With stock 5 and quantity 2 it throws
    "Stock insuficiente" and the stock is 7, on the instance and in the
    table, where the stock should have become 3; with quantity 7, more
    than the stock, it throws as it should but the stock is 12 and not
    the 5 it was. *)
Theorem reducir_stock_throws_and_adds :
  Producto.aumentarStock 2 (Producto.leida Muestras.producto_5, [Muestras.producto_5])
  = (Throw (Error "Stock insuficiente"),
     (Producto.leida (Producto.con_stock 7 Muestras.producto_5),
      [Producto.con_stock 7 Muestras.producto_5]))
  /\ Producto.aumentarStock 7 (Producto.leida Muestras.producto_5, [Muestras.producto_5])
     = (Throw (Error "Stock insuficiente"),
        (Producto.leida (Producto.con_stock 12 Muestras.producto_5),
         [Producto.con_stock 12 Muestras.producto_5])).
Proof. split; reflexivity. Qed.

(** C4. [aumentarStock] throws "Stock insuficiente" for every quantity, on
    every product; the instance is left with the quantity added by the
    call to [hayStock]. *)
Theorem aumentarStock_always_throws (cantidad : Z) (this : Producto.Instancia)
  (t : Producto.Tabla) :
  fst (Producto.aumentarStock cantidad (this, t)) = Throw (Error "Stock insuficiente")
  /\ Producto.stock (Producto.dataValues
                       (fst (snd (Producto.aumentarStock cantidad (this, t)))))
     = Producto.stock (Producto.dataValues this) + cantidad.
Proof.
  rewrite aumentarStock_run. simpl. split; [reflexivity |].
  apply hayStock_adds_to_stock.
Qed.

(** ** Deleting a product and the stored image *)

(** [deleteFile] returns a boolean whatever the file system answers. *)
Lemma deleteFile_never_throws (fs : Multer.SistemaDeArchivos) (uploadPath filename : string)
  (out : list Multer.Consola) :
  exists b linea,
    Multer.deleteFile fs uploadPath filename out = (Ok b, (out ++ [linea])%list).
Proof.
  unfold Multer.deleteFile, try_catch.
  destruct (fs (Multer.join uploadPath filename)) as [| | m]; simpl.
  - now exists true, (Multer.Log ("Archivo eliminado: " ++ filename)).
  - now exists false, (Multer.Log ("Archivo no encontrado: " ++ filename)).
  - now exists false, (Multer.ErrorLog ("Error al eliminar el archivo: " ++ m)).
Qed.

(** C9. Deleting a product succeeds whatever happens to its image: the
    row is deleted and the call returns normally for every answer of the
    file system; when the product has an image [deleteFile] is called and
    its outcome is on the console: removed, not found, or the error of
    the file system, which is logged and not rethrown. *)
Theorem destroy_never_fails_on_image_cleanup (fs : Multer.SistemaDeArchivos)
  (uploadPath : string) (producto : Producto.Fila) (t : Producto.Tabla)
  (out : list Multer.Consola) :
  Producto.destroy fs uploadPath producto (t, out)
  = (Ok tt,
     (filter (fun f => negb (Producto.id f =? Producto.id producto)) t,
      (out ++
       match Producto.imagen producto with
       | None => []
       | Some archivo =>
           if String.eqb archivo "" then []
           else
             match fs (Multer.join uploadPath archivo) with
             | Multer.Existe =>
                 [Multer.Log ("Archivo eliminado: " ++ archivo);
                  Multer.Log ("Imagen eliminada: " ++ archivo)]
             | Multer.NoExiste => [Multer.Log ("Archivo no encontrado: " ++ archivo)]
             | Multer.Falla m =>
                 [Multer.ErrorLog ("Error al eliminar el archivo: " ++ m)]
             end
       end)%list)).
Proof.
  unfold Producto.destroy, Producto.beforeDestroy.
  destruct (Producto.imagen producto) as [archivo |]; simpl.
  - destruct (String.eqb archivo ""); simpl.
    + now rewrite app_nil_r.
    + unfold bind, Multer.deleteFile, try_catch.
      destruct (fs (Multer.join uploadPath archivo)) as [| | m]; simpl;
        try reflexivity.
      now rewrite <- app_assoc.
  - now rewrite app_nil_r.
Qed.

(** ** The total of a cart *)


(** C8. [obtenerTotalCarrito] never returns the total: the identifier
    [total] is declared nowhere, so in a process where no global of that
    name exists the call ends with a ReferenceError, for the empty cart
    (at [return total]) as for any other (at the first [total += ...]). *)
Theorem obtenerTotalCarrito_reference_error (tabla : Carrito.Tabla) (usuario : Z) :
  Carrito.obtenerTotalCarrito tabla usuario None
  = (Throw (ReferenceError "total is not defined"), None).
Proof.
  unfold Carrito.obtenerTotalCarrito.
  destruct (filter (fun f => Carrito.usuarioId f =? usuario) tabla) as [| item items];
    reflexivity.
Qed.

(** ** The status of an order *)

Section GuardarPedido.

Import Pedido.

Variable ahora : Z.

Lemma changed_estado_leida (f : Fila) : changed_estado (leida f) = false.
Proof. unfold changed_estado, leida; simpl. now rewrite String.eqb_refl. Qed.

(** Membership in the list of the four status names. *)
Lemma includes_estados (e : string) :
  includes estados e = true ->
  e = "pendiente" \/ e = "pagado" \/ e = "enviado" \/ e = "cancelado".
Proof.
  unfold includes, estados; simpl.
  rewrite !orb_true_iff, !String.eqb_eq. intuition discriminate.
Qed.

Lemma estados_not_entregado (e : string) :
  includes estados e = true -> String.eqb e "entregado" = false.
Proof.
  intros H. apply includes_estados in H.
  destruct H as [-> | [-> | [-> | ->]]]; reflexivity.
Qed.

Lemma validate_valid (this : Instancia) :
  includes estados (estado (dataValues this)) = true ->
  validate this = (Ok tt, this).
Proof.
  intros H. unfold validate. rewrite H. simpl. now rewrite andb_false_r.
Qed.

Lemma save_sin_hooks_valid (this : Instancia) :
  includes estados (estado (dataValues this)) = true ->
  save_sin_hooks this = (Ok tt, leida (dataValues this)).
Proof.
  intros H. unfold save_sin_hooks, bind. now rewrite validate_valid.
Qed.

(** One [if] of the hook on an instance whose status is valid: the date
    column is stamped and the instance saved when the status changed into
    [nombre]; otherwise nothing happens. *)
Lemma rama_del_hook (nombre : string) (con : option Z -> Fila -> Fila) (this : Instancia) :
  (forall d f, estado (con d f) = estado f) ->
  includes estados (estado (dataValues this)) = true ->
  (pedido <- get ;;
   if changed_estado pedido && String.eqb (estado (dataValues pedido)) nombre then
     asignar (con (Some ahora)) ;;; save_sin_hooks
   else ret tt) this
  = (Ok tt,
     if changed_estado this && String.eqb (estado (dataValues this)) nombre
     then leida (con (Some ahora) (dataValues this)) else this).
Proof.
  intros Hcon H. unfold bind at 1. unfold get.
  destruct (changed_estado this && String.eqb (estado (dataValues this)) nombre);
    [| reflexivity].
  unfold bind, asignar, modify.
  rewrite save_sin_hooks_valid; simpl; [reflexivity | now rewrite Hcon].
Qed.

Lemma beforeUpdate_valid (this : Instancia) :
  includes estados (estado (dataValues this)) = true ->
  exists s,
    beforeUpdate ahora this = (Ok tt, s)
    /\ conserva (dataValues this) (dataValues s).
Proof.
  intros H. unfold beforeUpdate.
  unfold bind at 1. rewrite (rama_del_hook "pagado" con_fechaPago) by auto.
  set (s1 := if changed_estado this && String.eqb (estado (dataValues this)) "pagado"
             then leida (con_fechaPago (Some ahora) (dataValues this)) else this).
  assert (C1 : conserva (dataValues this) (dataValues s1)).
  { unfold s1, conserva.
    destruct (changed_estado this && String.eqb (estado (dataValues this)) "pagado");
      simpl; auto. }
  assert (H1 : includes estados (estado (dataValues s1)) = true).
  { destruct C1 as [-> _]. exact H. }
  unfold bind at 1. rewrite (rama_del_hook "enviado" con_fechaEnvio) by auto.
  set (s2 := if changed_estado s1 && String.eqb (estado (dataValues s1)) "enviado"
             then leida (con_fechaEnvio (Some ahora) (dataValues s1)) else s1).
  assert (C2 : conserva (dataValues this) (dataValues s2)).
  { unfold s2, conserva in *.
    destruct (changed_estado s1 && String.eqb (estado (dataValues s1)) "enviado");
      simpl; tauto. }
  assert (H2 : includes estados (estado (dataValues s2)) = true).
  { destruct C2 as [-> _]. exact H. }
  rewrite (rama_del_hook "entregado" con_fechaEntrega) by auto.
  rewrite (estados_not_entregado _ H2), andb_false_r.
  now exists s2.
Qed.

Lemma save_valid (this : Instancia) :
  includes estados (estado (dataValues this)) = true ->
  exists f,
    save ahora this = (Ok tt, leida f) /\ conserva (dataValues this) f.
Proof.
  intros H. unfold save.
  unfold bind at 1. rewrite validate_valid by exact H.
  destruct (beforeUpdate_valid this H) as (s & Hs & C).
  unfold bind. rewrite Hs. unfold escribir, modify.
  now exists (dataValues s).
Qed.

(** The third [if] of the hook is dead: on any instance whatever, [save]
    leaves the delivery date alone. A status changed to [entregado] is
    stopped by the validation, which runs before the hook. *)
Lemma save_never_stamps_fechaEntrega (this : Instancia) :
  fechaEntrega (dataValues (snd (save ahora this))) = fechaEntrega (dataValues this).
Proof.
  destruct (includes estados (estado (dataValues this))) eqn:Hv.
  - destruct (save_valid this Hv) as (f & Hf & _ & Hd & _).
    rewrite Hf. exact Hd.
  - unfold save. unfold bind at 1. unfold validate. rewrite Hv.
    destruct (changed_estado this) eqn:Hc; simpl; [reflexivity |].
    unfold beforeUpdate, bind, get. rewrite Hc. simpl. rewrite Hc. simpl.
    rewrite Hc. reflexivity.
Qed.

End GuardarPedido.

Section HistoriaDelPedido.

Import Pedido.

Variable ahora : Z.
Variable tabla_detalles : DetallePedido.Tabla.

Lemma estable_leida (f : Fila) :
  includes estados (estado f) = true -> estable (fechaEntrega f) (leida f).
Proof. intros H. unfold estable, leida; simpl. auto. Qed.

Lemma asignar_estado_y_save (nuevoEstado : string) (this : Instancia) :
  includes estados nuevoEstado = true ->
  exists f,
    (asignar (con_estado nuevoEstado) ;;; save ahora) this = (Ok tt, leida f)
    /\ estado f = nuevoEstado
    /\ fechaEntrega f = fechaEntrega (dataValues this)
    /\ id f = id (dataValues this).
Proof.
  intros H. unfold bind, asignar, modify.
  destruct (save_valid ahora
              (mkInstancia (con_estado nuevoEstado (dataValues this))
                 (previousDataValues this)) H) as (f & Hf & He & Hd & Hi).
  rewrite Hf. now exists f.
Qed.

Lemma cambiarEstado_estable (d : option Z) (nuevoEstado : string) (this : Instancia) :
  estable d this -> estable d (snd (cambiarEstado ahora nuevoEstado this)).
Proof.
  intros E. unfold cambiarEstado.
  destruct (includes estadosValidos nuevoEstado) eqn:H; simpl; [| exact E].
  destruct (asignar_estado_y_save nuevoEstado this H) as (f & Hf & He & Hd & _).
  rewrite Hf. simpl. destruct E as (_ & _ & E3 & _).
  unfold estable, leida; simpl. rewrite He, Hd, E3. auto.
Qed.

(** The loop of [cancelar] works on the products only. *)
Lemma devolver_keeps_pedido (detalles : list DetallePedido.Fila) (this : Instancia)
  (productos : Producto.Tabla) :
  fst (snd (forOf detalles devolver (this, productos))) = this.
Proof.
  revert productos. induction detalles as [| d ds IH]; intros productos; simpl.
  - reflexivity.
  - unfold bind at 1. unfold devolver at 1.
    destruct (Producto.findByPk (DetallePedido.productoId d) productos) as [producto |].
    + rewrite aumentarStock_run.
      destruct (snd (Producto.hayStock (DetallePedido.cantidad d) (producto, productos)))
        as [producto' productos'].
      reflexivity.
    + apply IH.
Qed.

Lemma cancelar_estable (d : option Z) (this : Instancia) (productos : Producto.Tabla) :
  estable d this ->
  estable d (fst (snd (cancelar ahora tabla_detalles (this, productos)))).
Proof.
  intros E. unfold cancelar. unfold bind at 1. simpl.
  destruct (puedeSerCancelado this); simpl; [| exact E].
  set (detalles := filter _ tabla_detalles).
  pose proof (devolver_keeps_pedido detalles this productos) as K.
  unfold bind at 1.
  destruct (forOf detalles devolver (this, productos)) as [r [this' productos']].
  simpl in K. subst this'.
  destruct r as [[] | e]; [| exact E].
  unfold en_pedido.
  destruct (asignar_estado_y_save "cancelado" this eq_refl) as (f & Hf & He & Hd & _).
  rewrite Hf. simpl. destruct E as (_ & _ & E3 & _).
  unfold estable, leida; simpl. rewrite He, Hd, E3. auto.
Qed.

Lemma ejecutar_estable (d : option Z) (op : Operacion) (this : Instancia)
  (productos : Producto.Tabla) :
  estable d this ->
  estable d (fst (snd (ejecutar ahora tabla_detalles op (this, productos)))).
Proof.
  intros E. destruct op as [nuevoEstado |]; simpl.
  - unfold en_pedido.
    pose proof (cambiarEstado_estable d nuevoEstado this E) as K.
    destruct (cambiarEstado ahora nuevoEstado this) as [r this']. exact K.
  - now apply cancelar_estable.
Qed.

Lemma historia_estable (d : option Z) (ops : list Operacion) (s : Instancia * Producto.Tabla) :
  estable d (fst s) -> estable d (fst (historia ahora tabla_detalles ops s)).
Proof.
  revert s. induction ops as [| op ops IH]; intros [this productos] E; simpl.
  - exact E.
  - apply IH. now apply ejecutar_estable.
Qed.

End HistoriaDelPedido.

(** C1, as the code has it. [cambiarEstado] checks the new status against
    the list of the four names and nothing else: a name outside the list
    (the delivered status [entregado] among them) throws and the order is
    left as it was; a name of the list is assigned and saved whatever the
    current status is, so that the order and its stored row both carry
    the new status. No table of transitions is consulted. *)
Theorem cambiarEstado_checks_membership_only (ahora : Z) (nuevoEstado : string)
  (this : Pedido.Instancia) :
  if includes Pedido.estadosValidos nuevoEstado then
    exists f,
      Pedido.cambiarEstado ahora nuevoEstado this = (Ok tt, Pedido.leida f)
      /\ Pedido.estado f = nuevoEstado
      /\ Pedido.id f = Pedido.id (Pedido.dataValues this)
  else
    Pedido.cambiarEstado ahora nuevoEstado this
    = (Throw (Error "Estado no valido, debe ser pendiente, pagado, enviado o cancelado"),
       this).
Proof.
  unfold Pedido.cambiarEstado.
  destruct (includes Pedido.estadosValidos nuevoEstado) eqn:H; simpl; [| reflexivity].
  destruct (asignar_estado_y_save ahora nuevoEstado this H) as (f & Hf & He & _ & Hi).
  exists f. auto.
Qed.

(** C1, the counterexample: a shipped order is put back to pending. The
    specification's machine has no transition enviado -> pendiente, yet
    the call returns normally and the status is changed. *)
Lemma cambiarEstado_accepts_enviado_a_pendiente :
  Especificacion.transicion_permitida "enviado" "pendiente" = false
  /\ Pedido.cambiarEstado Muestras.ahora "pendiente"
       (Pedido.leida (Muestras.pedido_en "enviado"))
     = (Ok tt, Pedido.leida (Muestras.pedido_en "pendiente")).
Proof. split; reflexivity. Qed.

(** The delivered status is refused although the specification's machine
    has the transition enviado -> entregado. *)
Lemma cambiarEstado_rejects_entregado :
  Especificacion.transicion_permitida "enviado" "entregado" = true
  /\ Pedido.cambiarEstado Muestras.ahora "entregado"
       (Pedido.leida (Muestras.pedido_en "enviado"))
     = (Throw (Error "Estado no valido, debe ser pendiente, pagado, enviado o cancelado"),
        Pedido.leida (Muestras.pedido_en "enviado")).
Proof. split; reflexivity. Qed.

(** Entering [pagado] stamps the payment date in the same request. *)
Lemma cambiarEstado_stamps_fechaPago :
  Pedido.cambiarEstado Muestras.ahora "pagado"
    (Pedido.leida (Muestras.pedido_en "pendiente"))
  = (Ok tt,
     Pedido.leida (Pedido.con_fechaPago (Some Muestras.ahora) (Muestras.pedido_en "pagado"))).
Proof. reflexivity. Qed.

(** ** Cancelling an order *)

(** An order that is neither pending nor paid is not cancelled: the call
    throws and nothing is touched. *)
Lemma cancelar_rejects_other_states (ahora : Z) (tabla_detalles : DetallePedido.Tabla)
  (this : Pedido.Instancia) (productos : Producto.Tabla) :
  Pedido.puedeSerCancelado this = false ->
  Pedido.cancelar ahora tabla_detalles (this, productos)
  = (Throw (Error "No se puede cancelar este pedido"), (this, productos)).
Proof.
  intros H. unfold Pedido.cancelar. unfold bind at 1. simpl. now rewrite H.
Qed.

(** C5. Cancelling the pending order 1, whose only line is two units of
    product 1 (stock 5): [aumentarStock] throws "Stock insuficiente", so
    [cancelar] throws too; the order stays pending while the stock has
    become 7. A second attempt does the same again and the stock is 9:
    the quantities of the lines are handed back once per attempt and the
    order is never cancelled. *)
Theorem cancelar_throws_and_keeps_status :
  Pedido.cancelar Muestras.ahora [Muestras.detalle_1]
    (Pedido.leida (Muestras.pedido_en "pendiente"), [Muestras.producto_5])
  = (Throw (Error "Stock insuficiente"),
     (Pedido.leida (Muestras.pedido_en "pendiente"),
      [Producto.con_stock 7 Muestras.producto_5]))
  /\ Pedido.historia Muestras.ahora [Muestras.detalle_1] [Pedido.Cancelar; Pedido.Cancelar]
       (Pedido.leida (Muestras.pedido_en "pendiente"), [Muestras.producto_5])
     = (Pedido.leida (Muestras.pedido_en "pendiente"),
        [Producto.con_stock 9 Muestras.producto_5]).
Proof. split; reflexivity. Qed.

(** The same for every cancellable order whose first line names a product
    of the table. *)
Lemma cancelar_throws_on_first_line (ahora : Z) (tabla_detalles : DetallePedido.Tabla)
  (this : Pedido.Instancia) (productos : Producto.Tabla)
  (d : DetallePedido.Fila) (ds : list DetallePedido.Fila) (producto : Producto.Instancia) :
  Pedido.puedeSerCancelado this = true ->
  filter (fun x => DetallePedido.pedidoId x =? Pedido.id (Pedido.dataValues this))
    tabla_detalles = d :: ds ->
  Producto.findByPk (DetallePedido.productoId d) productos = Some producto ->
  Pedido.cancelar ahora tabla_detalles (this, productos)
  = (Throw (Error "Stock insuficiente"),
     (this, snd (snd (Producto.hayStock (DetallePedido.cantidad d) (producto, productos))))).
Proof.
  intros Hc Hd Hp.
  set (s := snd (Producto.hayStock (DetallePedido.cantidad d) (producto, productos))).
  unfold Pedido.cancelar. unfold bind at 1. simpl.
  rewrite Hc, Hd. simpl. unfold bind at 1. unfold bind at 1.
  unfold Pedido.devolver at 1. rewrite Hp, aumentarStock_run. fold s.
  destruct s as [producto' productos']. reflexivity.
Qed.

(** C10. Along every history of [cambiarEstado] and [cancelar] requests on
    an order read from the table, the status (of the instance and of the
    stored row) is one of pendiente, pagado, enviado, cancelado and so is
    never entregado, and the delivery date is the one the row had: the
    branch of the hook that stamps [fechaEntrega] is never taken. *)
Theorem estado_never_entregado (ahora : Z) (tabla_detalles : DetallePedido.Tabla)
  (ops : list Pedido.Operacion) (fila : Pedido.Fila) (productos : Producto.Tabla) :
  includes Pedido.estados (Pedido.estado fila) = true ->
  let this' :=
    fst (Pedido.historia ahora tabla_detalles ops (Pedido.leida fila, productos)) in
  includes Pedido.estados (Pedido.estado (Pedido.dataValues this')) = true
  /\ includes Pedido.estados (Pedido.estado (Pedido.previousDataValues this')) = true
  /\ Pedido.estado (Pedido.dataValues this') <> "entregado"
  /\ Pedido.estado (Pedido.previousDataValues this') <> "entregado"
  /\ Pedido.fechaEntrega (Pedido.dataValues this') = Pedido.fechaEntrega fila
  /\ Pedido.fechaEntrega (Pedido.previousDataValues this') = Pedido.fechaEntrega fila.
Proof.
  intros H this'.
  pose proof (historia_estable ahora tabla_detalles (Pedido.fechaEntrega fila) ops
                (Pedido.leida fila, productos) (estable_leida fila H)) as E.
  fold this' in E. destruct E as (E1 & E2 & E3 & E4).
  repeat split; auto.
  - intros K. apply estados_not_entregado in E1. rewrite K in E1. discriminate.
  - intros K. apply estados_not_entregado in E2. rewrite K in E2. discriminate.
Qed.

(** C10 at a concrete history: paying, asking for delivered, cancelling. *)
Lemma estado_never_entregado_witness :
  includes Pedido.estados (Pedido.estado (Muestras.pedido_en "pendiente")) = true
  /\ Pedido.estado
       (Pedido.dataValues
          (fst (Pedido.historia Muestras.ahora [Muestras.detalle_1]
                  [Pedido.CambiarEstado "pagado"; Pedido.CambiarEstado "entregado";
                   Pedido.Cancelar]
                  (Pedido.leida (Muestras.pedido_en "pendiente"), [Muestras.producto_5]))))
     <> "entregado".
Proof.
  split; [reflexivity |].
  apply (estado_never_entregado Muestras.ahora [Muestras.detalle_1]
           [Pedido.CambiarEstado "pagado"; Pedido.CambiarEstado "entregado";
            Pedido.Cancelar]
           (Muestras.pedido_en "pendiente") [Muestras.producto_5] eq_refl).
Defined.

(** ** Tables: what a write leaves to be read *)

Lemma find_update_stock (k j n : Z) (t : Producto.Tabla) :
  find (fun f => Producto.id f =? k) (Producto.update_stock j n t)
  = if k =? j
    then option_map (Producto.con_stock n) (find (fun f => Producto.id f =? k) t)
    else find (fun f => Producto.id f =? k) t.
Proof.
  induction t as [| f t IH]; simpl.
  - now destruct (k =? j).
  - destruct (Producto.id f =? j) eqn:Ej; simpl.
    + destruct (Producto.id f =? k) eqn:Ek.
      * apply Z.eqb_eq in Ej, Ek. subst. rewrite Z.eqb_refl. reflexivity.
      * exact IH.
    + destruct (Producto.id f =? k) eqn:Ek.
      * apply Z.eqb_eq in Ek. subst. now rewrite Ej.
      * exact IH.
Qed.

Lemma vaciarCarrito_leaves_none (usuario : Z) (tabla : Carrito.Tabla) :
  filter (fun l => Carrito.usuarioId l =? usuario)
    (snd (Carrito.vaciarCarrito usuario tabla)) = [].
Proof.
  unfold Carrito.vaciarCarrito; simpl.
  induction tabla as [| l tabla IH]; simpl; [reflexivity |].
  destruct (Carrito.usuarioId l =? usuario) eqn:E; simpl; [exact IH |].
  now rewrite E.
Qed.


(** ** Cascading deactivation of the catalogue *)

Section Cascada.

Import Catalogo.

Variable rechaza : Rechazo.
Variable tx : option Z.
Hypothesis nada_rechazado : forall n k, rechaza n k = false.

Lemma producto_tras_nil (f : Producto.Fila) : producto_tras [] f = f.
Proof. reflexivity. Qed.

Lemma producto_tras_app (ks ks' : list Z) (f : Producto.Fila) :
  producto_tras ks' (producto_tras ks f) = producto_tras (ks ++ ks') f.
Proof.
  unfold producto_tras. rewrite existsb_app.
  destruct (existsb (Z.eqb (Producto.id f)) ks); simpl.
  - now destruct (existsb (Z.eqb (Producto.id f)) ks').
  - reflexivity.
Qed.

Lemma producto_tras_one (k : Z) (f : Producto.Fila) :
  (if Producto.id f =? k then Producto.con_activo false f else f) = producto_tras [k] f.
Proof. unfold producto_tras; simpl. now rewrite orb_false_r. Qed.

Lemma producto_tras_inactive (ks : list Z) (f : Producto.Fila) :
  Producto.activo f = false -> producto_tras ks f = f.
Proof.
  intros H. unfold producto_tras.
  destruct (existsb (Z.eqb (Producto.id f)) ks); [| reflexivity].
  destruct f; simpl in *; now subst.
Qed.

Lemma producto_tras_member (ks : list Z) (f : Producto.Fila) :
  In (Producto.id f) ks -> producto_tras ks f = Producto.con_activo false f.
Proof.
  intros H. unfold producto_tras.
  replace (existsb (Z.eqb (Producto.id f)) ks) with true; [reflexivity |].
  symmetry. apply existsb_exists. exists (Producto.id f). split; [exact H |].
  apply Z.eqb_refl.
Qed.

Lemma producto_tras_cases (ks : list Z) (f : Producto.Fila) :
  producto_tras ks f = f \/ producto_tras ks f = Producto.con_activo false f.
Proof.
  unfold producto_tras. destruct (existsb (Z.eqb (Producto.id f)) ks); auto.
Qed.

Lemma consulta_accepted (n : NombreTabla) (k : Z) (efecto : t -> t) (c : t) :
  consulta rechaza tx n k efecto c = (Ok tt, anotar n k tx (efecto c)).
Proof. unfold consulta. now rewrite nada_rechazado. Qed.

(** The loop over the products of a [findAll] result. *)
Lemma bucle_productos (l : list Producto.Fila) (c : t) :
  forOf l (producto_update rechaza tx false) c
  = (Ok tt,
     mk (categorias c) (subcategorias c)
        (map (producto_tras (claves_activas l)) (productos c))
        (diario c ++ map (fun k => mkEscritura Productos k tx) (claves_activas l))%list).
Proof.
  revert c. induction l as [| p l IH]; intros c.
  - simpl. unfold ret. destruct c; simpl. rewrite app_nil_r.
    rewrite (map_ext _ (fun f => f) producto_tras_nil), map_id. reflexivity.
  - simpl. unfold bind at 1. unfold producto_update at 1. unfold claves_activas. simpl.
    destruct (Producto.activo p); simpl.
    + rewrite consulta_accepted, IH. simpl. f_equal. f_equal.
      * rewrite map_map. apply map_ext. intros f.
        rewrite producto_tras_one, producto_tras_app. reflexivity.
      * now rewrite <- app_assoc.
    + apply IH.
Qed.

(** What one [subcategoria.update({activo: false})] leaves. *)
Lemma subcategoria_update_run (s : FilaSubcategoria) (c : t) :
  Subcategoria.update rechaza tx false s c
  = (Ok tt,
     if sub_activo s then
       let ks :=
         claves_activas
           (filter (fun p => Producto.subcategoriaId p =? sub_id s) (productos c)) in
       mk (categorias c)
          (map (subcategoria_tras [sub_id s]) (subcategorias c))
          (map (producto_tras ks) (productos c))
          (diario c ++ mkEscritura Subcategorias (sub_id s) tx
                       :: map (fun k => mkEscritura Productos k tx) ks)%list
     else c).
Proof.
  unfold Subcategoria.update, Subcategoria.changed_activo,
    Subcategoria.afterUpdate, Subcategoria.changed_activo. simpl.
  destruct (sub_activo s); simpl; [| reflexivity].
  unfold bind at 1. rewrite consulta_accepted.
  unfold try_catch, bind, get. rewrite bucle_productos. simpl.
  f_equal. f_equal.
  - apply map_ext. intros f. unfold subcategoria_tras; simpl.
    now rewrite orb_false_r.
  - now rewrite <- app_assoc.
Qed.

(** After the loop over the subcategories of a [findAll] result: the
    categories are untouched, the subcategories of the result are
    inactive, the products have lost some keys [ks], among them every
    active product of an active subcategory of the result, and the
    journal grew by statements sent under [tx]. *)
Lemma bucle_subcategorias (l : list FilaSubcategoria) (c : t) :
  exists c' ks nuevas,
    forOf l (Subcategoria.update rechaza tx false) c = (Ok tt, c')
    /\ categorias c' = categorias c
    /\ subcategorias c' = map (subcategoria_tras (subclaves_activas l)) (subcategorias c)
    /\ productos c' = map (producto_tras ks) (productos c)
    /\ (forall s p, In s l -> sub_activo s = true -> In p (productos c) ->
          Producto.subcategoriaId p = sub_id s -> Producto.activo p = true ->
          In (Producto.id p) ks)
    /\ diario c' = (diario c ++ nuevas)%list
    /\ todas_bajo tx nuevas.
Proof.
  revert c. induction l as [| s l IH]; intros c.
  - exists c, [], []. simpl. unfold ret. repeat split.
    + unfold subclaves_activas; simpl.
      rewrite (map_ext _ (fun f => f)), map_id; [reflexivity |].
      intros f. reflexivity.
    + now rewrite (map_ext _ (fun f => f) producto_tras_nil), map_id.
    + intros s p [].
    + now rewrite app_nil_r.
    + constructor.
  - simpl. unfold bind at 1. rewrite subcategoria_update_run.
    destruct (sub_activo s) eqn:Hs.
    + set (ks1 := claves_activas
                    (filter (fun p => Producto.subcategoriaId p =? sub_id s) (productos c))).
      simpl.
      destruct (IH (mk (categorias c)
                      (map (subcategoria_tras [sub_id s]) (subcategorias c))
                      (map (producto_tras ks1) (productos c))
                      (diario c ++ mkEscritura Subcategorias (sub_id s) tx
                         :: map (fun k => mkEscritura Productos k tx) ks1)%list))
        as (c' & ks & nuevas & Hrun & Hc & Hsub & Hp & Hin & Hd & Htx).
      simpl in *.
      exists c', (ks1 ++ ks)%list,
        (mkEscritura Subcategorias (sub_id s) tx
           :: map (fun k => mkEscritura Productos k tx) ks1 ++ nuevas)%list.
      repeat split; auto.
      * rewrite Hsub, map_map. apply map_ext. intros f.
        unfold subcategoria_tras, subclaves_activas; simpl. rewrite Hs; simpl.
        rewrite orb_false_r.
        destruct (sub_id f =? sub_id s); simpl; [| reflexivity].
        now destruct (existsb (Z.eqb (sub_id f)) (map sub_id (filter sub_activo l))).
      * rewrite Hp, map_map. apply map_ext. intros f. apply producto_tras_app.
      * intros s0 p [<- | Hs0] Ha Hpin Hsubid Hact.
        -- apply in_or_app. left. unfold ks1, claves_activas.
           apply in_map, filter_In. split; [| exact Hact].
           apply filter_In. split; [exact Hpin | now apply Z.eqb_eq].
        -- apply in_or_app.
           destruct (in_dec Z.eq_dec (Producto.id p) ks1) as [Hk | Hk]; [now left |].
           right.
           assert (E : producto_tras ks1 p = p).
           { unfold producto_tras.
             replace (existsb (Z.eqb (Producto.id p)) ks1) with false; [reflexivity |].
             symmetry. apply not_true_is_false. intros E.
             apply existsb_exists in E. destruct E as (x & Hx & Ex).
             apply Z.eqb_eq in Ex. now subst. }
           apply (Hin s0 p Hs0 Ha); auto.
           rewrite <- E. now apply in_map.
      * rewrite Hd. rewrite <- app_assoc. reflexivity.
      * constructor; [reflexivity |]. apply Forall_app. split; [| exact Htx].
        apply Forall_forall. intros e He. apply in_map_iff in He.
        destruct He as (k & <- & _). reflexivity.
    + destruct (IH c) as (c' & ks & nuevas & Hrun & Hc & Hsub & Hp & Hin & Hd & Htx).
      exists c', ks, nuevas. repeat split; auto.
      * unfold subclaves_activas in *; simpl. now rewrite Hs.
      * intros s0 p [<- | Hs0] Ha; [congruence |]. now apply Hin.
Qed.

End Cascada.

(** The journal of the cascade, for any storage. *)

Section DiarioDeLaCascada.

Import Catalogo.

Variable rechaza : Rechazo.
Variable tx : option Z.

Lemma extiende_refl (c : t) : extiende tx c c.
Proof. exists []. split; [now rewrite app_nil_r | constructor]. Qed.

Lemma extiende_trans (c1 c2 c3 : t) :
  extiende tx c1 c2 -> extiende tx c2 c3 -> extiende tx c1 c3.
Proof.
  intros (n1 & H1 & T1) (n2 & H2 & T2). exists (n1 ++ n2)%list. split.
  - now rewrite H2, H1, app_assoc.
  - apply Forall_app. now split.
Qed.

Lemma bajo_ret {A : Type} (a : A) : bajo_transaccion tx (ret a : M t A).
Proof. intros c. apply extiende_refl. Qed.

Lemma bajo_get : bajo_transaccion tx (get : M t t).
Proof. intros c. apply extiende_refl. Qed.

Lemma bajo_throw {A : Type} (e : Excepcion) : bajo_transaccion tx (throw e : M t A).
Proof. intros c. apply extiende_refl. Qed.

Lemma bajo_bind {A B : Type} (m : M t A) (k : A -> M t B) :
  bajo_transaccion tx m -> (forall a, bajo_transaccion tx (k a)) ->
  bajo_transaccion tx (bind m k).
Proof.
  intros Hm Hk c. unfold bind. specialize (Hm c).
  destruct (m c) as [[a | e] c1]; simpl in *; [| exact Hm].
  eapply extiende_trans; [exact Hm | apply Hk].
Qed.

Lemma bajo_try_catch {A : Type} (m : M t A) (h : Excepcion -> M t A) :
  bajo_transaccion tx m -> (forall e, bajo_transaccion tx (h e)) ->
  bajo_transaccion tx (try_catch m h).
Proof.
  intros Hm Hh c. unfold try_catch. specialize (Hm c).
  destruct (m c) as [[a | e] c1]; simpl in *; [exact Hm |].
  eapply extiende_trans; [exact Hm | apply Hh].
Qed.

Lemma bajo_forOf {A : Type} (l : list A) (cuerpo : A -> M t unit) :
  (forall x, bajo_transaccion tx (cuerpo x)) ->
  bajo_transaccion tx (forOf l cuerpo).
Proof.
  intros H. induction l as [| x l IH]; simpl.
  - apply bajo_ret.
  - apply bajo_bind; [apply H | intros _; exact IH].
Qed.

Lemma bajo_consulta (n : NombreTabla) (k : Z) (efecto : t -> t) :
  (forall c, diario (efecto c) = diario c) ->
  bajo_transaccion tx (consulta rechaza tx n k efecto).
Proof.
  intros H c. unfold consulta.
  destruct (rechaza n k); simpl; [apply extiende_refl |].
  exists [mkEscritura n k tx]. simpl. rewrite H. split; [reflexivity |].
  constructor; [reflexivity | constructor].
Qed.

Lemma bajo_producto_update (valor : bool) (producto : Producto.Fila) :
  bajo_transaccion tx (producto_update rechaza tx valor producto).
Proof.
  unfold producto_update.
  destruct (Bool.eqb (Producto.activo producto) valor); [apply bajo_ret |].
  now apply bajo_consulta.
Qed.

Lemma bajo_subcategoria_update (valor : bool) (leida : FilaSubcategoria) :
  bajo_transaccion tx (Subcategoria.update rechaza tx valor leida).
Proof.
  unfold Subcategoria.update.
  destruct (Subcategoria.changed_activo _); [| apply bajo_ret].
  apply bajo_bind; [now apply bajo_consulta | intros _].
  unfold Subcategoria.afterUpdate.
  destruct (_ && _); [| apply bajo_ret].
  apply bajo_try_catch; [| intros e; apply bajo_throw].
  apply bajo_bind; [apply bajo_get | intros c].
  apply bajo_forOf. intros p. apply bajo_producto_update.
Qed.

(** X11. Whatever the storage refuses and wherever the cascade stops, every
    statement it sent carries the transaction of the options it was
    called with. *)
Lemma cascade_statements_under_transaction (valor : bool) (leida : FilaCategoria) :
  bajo_transaccion tx (Categoria.update rechaza tx valor leida).
Proof.
  unfold Categoria.update.
  destruct (Categoria.changed_activo _); [| apply bajo_ret].
  apply bajo_bind; [now apply bajo_consulta | intros _].
  unfold Categoria.afterUpdate.
  destruct (_ && _); [| apply bajo_ret].
  apply bajo_try_catch; [| intros e; apply bajo_throw].
  apply bajo_bind; [apply bajo_get | intros c].
  apply bajo_bind.
  - apply bajo_forOf. intros s. apply bajo_subcategoria_update.
  - intros _. apply bajo_bind; [apply bajo_get | intros c'].
    apply bajo_forOf. intros p. apply bajo_producto_update.
Qed.

End DiarioDeLaCascada.

Lemma filter_map_same {A : Type} (P : A -> bool) (g : A -> A) (l : list A) :
  (forall x, P (g x) = P x) -> filter P (map g l) = map g (filter P l).
Proof.
  intros H. induction l as [| x l IH]; simpl; [reflexivity |].
  rewrite H. destruct (P x); simpl; now rewrite IH.
Qed.

Lemma producto_tras_categoriaId (ks : list Z) (f : Producto.Fila) :
  Producto.categoriaId (Catalogo.producto_tras ks f) = Producto.categoriaId f.
Proof. destruct (producto_tras_cases ks f) as [-> | ->]; reflexivity. Qed.

Lemma producto_tras_subcategoriaId (ks : list Z) (f : Producto.Fila) :
  Producto.subcategoriaId (Catalogo.producto_tras ks f) = Producto.subcategoriaId f.
Proof. destruct (producto_tras_cases ks f) as [-> | ->]; reflexivity. Qed.

Lemma con_activo_false_inactive (f : Producto.Fila) :
  Producto.activo f = false -> Producto.con_activo false f = f.
Proof. intros H. destruct f; simpl in *; now subst. Qed.




(** X12. Reactivating a category does not cascade: whatever the storage
    does, the subcategories and the products are left as they were. *)
Lemma categoria_reactivation_does_not_cascade (rechaza : Catalogo.Rechazo) (tx : option Z)
  (categoria : Catalogo.FilaCategoria) (c : Catalogo.t) :
  Catalogo.subcategorias (snd (Categoria.update rechaza tx true categoria c))
  = Catalogo.subcategorias c
  /\ Catalogo.productos (snd (Categoria.update rechaza tx true categoria c))
     = Catalogo.productos c.
Proof.
  unfold Categoria.update, Categoria.changed_activo. simpl.
  destruct (Catalogo.cat_activo categoria); simpl; [auto |].
  unfold bind, Catalogo.consulta, Categoria.afterUpdate, Categoria.changed_activo.
  destruct (rechaza Catalogo.Categorias (Catalogo.cat_id categoria)); simpl; auto.
  rewrite andb_false_r. simpl. auto.
Qed.

(* ================================================================== *)
(** * Further properties of the models                                 *)
(* ================================================================== *)

(** ** Orders: what a request writes *)

Section PedidoExacto.

Import Pedido.

Variable ahora : Z.

Lemma beforeUpdate_exact (this : Instancia) :
  includes estados (estado (dataValues this)) = true ->
  beforeUpdate ahora this
  = (Ok tt,
     if changed_estado this && String.eqb (estado (dataValues this)) "pagado"
     then leida (con_fechaPago (Some ahora) (dataValues this))
     else if changed_estado this && String.eqb (estado (dataValues this)) "enviado"
          then leida (con_fechaEnvio (Some ahora) (dataValues this))
          else this).
Proof.
  intros H. unfold beforeUpdate.
  unfold bind at 1. rewrite (rama_del_hook ahora "pagado" con_fechaPago) by auto.
  destruct (changed_estado this && String.eqb (estado (dataValues this)) "pagado").
  - unfold bind at 1.
    rewrite (rama_del_hook ahora "enviado" con_fechaEnvio) by auto.
    rewrite changed_estado_leida. simpl andb. cbv iota.
    rewrite (rama_del_hook ahora "entregado" con_fechaEntrega) by auto.
    rewrite changed_estado_leida. reflexivity.
  - unfold bind at 1.
    rewrite (rama_del_hook ahora "enviado" con_fechaEnvio) by auto.
    destruct (changed_estado this && String.eqb (estado (dataValues this)) "enviado").
    + rewrite (rama_del_hook ahora "entregado" con_fechaEntrega) by auto.
      rewrite changed_estado_leida. reflexivity.
    + rewrite (rama_del_hook ahora "entregado" con_fechaEntrega) by auto.
      now rewrite (estados_not_entregado _ H), andb_false_r.
Qed.

(** [save] on an instance whose status is one of the four values: the
    row is stamped and stored, and nothing stays dirty. *)
Lemma save_exact (this : Instancia) :
  includes estados (estado (dataValues this)) = true ->
  save ahora this = (Ok tt, leida (sellar ahora (changed_estado this) (dataValues this))).
Proof.
  intros H. unfold save.
  unfold bind at 1. rewrite validate_valid by exact H.
  unfold bind. rewrite beforeUpdate_exact by exact H.
  unfold sellar, escribir, modify.
  destruct (changed_estado this && String.eqb (estado (dataValues this)) "pagado");
    [reflexivity |].
  destruct (changed_estado this && String.eqb (estado (dataValues this)) "enviado");
    reflexivity.
Qed.

Lemma asignar_estado_y_save_exact (nuevoEstado : string) (this : Instancia) :
  includes estados nuevoEstado = true ->
  (asignar (con_estado nuevoEstado) ;;; save ahora) this
  = (Ok tt,
     leida (sellar ahora
              (negb (String.eqb nuevoEstado (estado (previousDataValues this))))
              (con_estado nuevoEstado (dataValues this)))).
Proof.
  intros H. unfold bind, asignar, modify.
  rewrite save_exact by exact H. reflexivity.
Qed.

Lemma con_estado_same (f : Fila) : con_estado (estado f) f = f.
Proof. now destruct f. Qed.

Lemma sellar_unchanged (f : Fila) : sellar ahora false f = f.
Proof. reflexivity. Qed.

Lemma sellar_inmutables (b : bool) (f : Fila) :
  inmutables (sellar ahora b f) = inmutables f.
Proof.
  unfold sellar.
  destruct (b && String.eqb (estado f) "pagado"); [reflexivity |].
  destruct (b && String.eqb (estado f) "enviado"); reflexivity.
Qed.

Lemma sellar_estado (b : bool) (f : Fila) : estado (sellar ahora b f) = estado f.
Proof.
  unfold sellar.
  destruct (b && String.eqb (estado f) "pagado"); [reflexivity |].
  destruct (b && String.eqb (estado f) "enviado"); reflexivity.
Qed.

Lemma sellar_fechaPago (b : bool) (f : Fila) :
  fechada ahora (fechaPago f) (fechaPago (sellar ahora b f)).
Proof.
  unfold sellar, fechada.
  destruct (b && String.eqb (estado f) "pagado"); [now right |].
  destruct (b && String.eqb (estado f) "enviado"); now left.
Qed.

Lemma sellar_fechaEnvio (b : bool) (f : Fila) :
  fechada ahora (fechaEnvio f) (fechaEnvio (sellar ahora b f)).
Proof.
  unfold sellar, fechada.
  destruct (b && String.eqb (estado f) "pagado"); [now left |].
  destruct (b && String.eqb (estado f) "enviado"); [now right | now left].
Qed.

Lemma fechada_trans (a b c : option Z) :
  fechada ahora a b -> fechada ahora b c -> fechada ahora a c.
Proof. unfold fechada. intros [-> | ->] [-> | ->]; auto. Qed.

End PedidoExacto.



(** X2. Repeating a [cambiarEstado] request changes nothing: the second
    call, at whatever later time, returns what the first returned and
    leaves the order as the first left it; a date is not stamped twice. *)
Theorem cambiarEstado_repeated_is_noop (ahora ahora' : Z) (nuevoEstado : string)
  (this : Pedido.Instancia) :
  Pedido.cambiarEstado ahora' nuevoEstado
    (snd (Pedido.cambiarEstado ahora nuevoEstado this))
  = Pedido.cambiarEstado ahora nuevoEstado this.
Proof.
  unfold Pedido.cambiarEstado.
  destruct (includes Pedido.estadosValidos nuevoEstado) eqn:H; cbn [negb].
  - rewrite (asignar_estado_y_save_exact ahora nuevoEstado this H).
    cbn [snd].
    rewrite (asignar_estado_y_save_exact ahora' nuevoEstado _ H).
    cbn [Pedido.leida Pedido.dataValues Pedido.previousDataValues].
    rewrite sellar_estado. cbn [Pedido.con_estado Pedido.estado].
    rewrite String.eqb_refl. cbn [negb]. rewrite sellar_unchanged.
    f_equal. f_equal.
    set (g := Pedido.sellar ahora _ _).
    assert (E : Pedido.estado g = nuevoEstado) by (unfold g; now rewrite sellar_estado).
    rewrite <- E at 1. apply con_estado_same.
  - reflexivity.
Qed.

Section PedidoConservado.

Import Pedido.

Variable relojes : list Z.
Variable tabla_detalles : DetallePedido.Tabla.
Variable d0 : Fila.

Lemma fechada_en_step (ahora : Z) (a b c : option Z) :
  In ahora relojes ->
  fechada_en relojes a b -> fechada ahora b c -> fechada_en relojes a c.
Proof.
  intros Hin Hab [-> | ->]; [exact Hab |].
  right. now exists ahora.
Qed.

Lemma conservado_sellar (ahora : Z) (b : bool) (e : string) (f : Fila) :
  In ahora relojes ->
  conservado relojes d0 f -> conservado relojes d0 (sellar ahora b (con_estado e f)).
Proof.
  intros Hin (Hi & Hp & He). unfold conservado.
  rewrite sellar_inmutables. repeat split.
  - exact Hi.
  - eapply fechada_en_step;
      [exact Hin | exact Hp | apply (sellar_fechaPago ahora b (con_estado e f))].
  - eapply fechada_en_step;
      [exact Hin | exact He | apply (sellar_fechaEnvio ahora b (con_estado e f))].
Qed.

Lemma cambiarEstado_conservado (ahora : Z) (nuevoEstado : string) (this : Instancia) :
  In ahora relojes ->
  ambos_conservados relojes d0 this ->
  ambos_conservados relojes d0 (snd (cambiarEstado ahora nuevoEstado this)).
Proof.
  intros Hin [Hd Hp]. unfold cambiarEstado.
  destruct (includes estadosValidos nuevoEstado) eqn:H; cbn [negb].
  - rewrite (asignar_estado_y_save_exact ahora nuevoEstado this H). cbn [snd].
    split; cbn [leida dataValues previousDataValues]; now apply conservado_sellar.
  - now split.
Qed.

Lemma cancelar_conservado (ahora : Z) (this : Instancia) (productos : Producto.Tabla) :
  In ahora relojes ->
  ambos_conservados relojes d0 this ->
  ambos_conservados relojes d0
    (fst (snd (cancelar ahora tabla_detalles (this, productos)))).
Proof.
  intros Hin [Hd Hp]. unfold cancelar. unfold bind at 1. simpl.
  destruct (puedeSerCancelado this); simpl; [| now split].
  set (detalles := filter _ tabla_detalles).
  pose proof (devolver_keeps_pedido detalles this productos) as K.
  unfold bind at 1.
  destruct (forOf detalles devolver (this, productos)) as [r [this' productos']].
  simpl in K. subst this'.
  destruct r as [[] | e]; [| now split].
  unfold en_pedido.
  rewrite (asignar_estado_y_save_exact ahora "cancelado" this eq_refl).
  split; cbn [fst snd leida dataValues previousDataValues]; now apply conservado_sellar.
Qed.

Lemma historia_con_reloj_conservado (ops : list (Z * Operacion))
  (s : Instancia * Producto.Tabla) :
  incl (map fst ops) relojes ->
  ambos_conservados relojes d0 (fst s) ->
  ambos_conservados relojes d0 (fst (historia_con_reloj tabla_detalles ops s)).
Proof.
  revert s. induction ops as [| [ahora op] ops IH]; intros [this productos] Hi E; simpl.
  - exact E.
  - assert (Hin : In ahora relojes) by (apply Hi; now left).
    apply IH; [intros x Hx; apply Hi; now right |].
    destruct op as [nuevoEstado |]; simpl.
    + unfold en_pedido.
      pose proof (cambiarEstado_conservado ahora nuevoEstado this Hin E) as K.
      destruct (cambiarEstado ahora nuevoEstado this) as [r this']. exact K.
    + now apply cancelar_conservado.
Qed.

Lemma fechada_en_con_fecha (a b : option Z) :
  fechada_en relojes a b -> implb (con_fecha a) (con_fecha b) = true.
Proof.
  intros [-> | (ahora & _ & ->)].
  - now destruct a.
  - now destruct a.
Qed.

End PedidoConservado.

(** X3. Along every history of [cambiarEstado] and [cancelar] requests on
    a stored order, each request served at its own time, the key, the
    owner, the total and the shipping data never change, and each of the
    payment and shipping dates is the one the row had or the time of one
    of the requests: a date that is set is never cleared. This holds for
    the instance and for the stored row. *)
Theorem historia_keeps_total_and_dates (tabla_detalles : DetallePedido.Tabla)
  (ops : list (Z * Pedido.Operacion)) (fila : Pedido.Fila) (productos : Producto.Tabla) :
  let final :=
    fst (Pedido.historia_con_reloj tabla_detalles ops (Pedido.leida fila, productos)) in
  let relojes := map fst ops in
  Pedido.conservado relojes fila (Pedido.dataValues final)
  /\ Pedido.conservado relojes fila (Pedido.previousDataValues final)
  /\ implb (Pedido.con_fecha (Pedido.fechaPago fila))
       (Pedido.con_fecha (Pedido.fechaPago (Pedido.previousDataValues final))) = true
  /\ implb (Pedido.con_fecha (Pedido.fechaEnvio fila))
       (Pedido.con_fecha (Pedido.fechaEnvio (Pedido.previousDataValues final))) = true.
Proof.
  intros final relojes.
  assert (C : Pedido.conservado relojes fila fila) by (repeat split; now left).
  destruct (historia_con_reloj_conservado relojes tabla_detalles fila ops
              (Pedido.leida fila, productos) (incl_refl _) (conj C C)) as [Hd Hp].
  fold final in Hd, Hp. split; [exact Hd |]. split; [exact Hp |].
  destruct Hp as (_ & Hpago & Henvio).
  split; eapply fechada_en_con_fecha; eassumption.
Qed.

(** The order paid at the time 100 and shipped at the time 200 keeps both
    dates. *)
Lemma historia_two_clocks :
  Pedido.previousDataValues
    (fst (Pedido.historia_con_reloj []
            [(100, Pedido.CambiarEstado "pagado"); (200, Pedido.CambiarEstado "enviado")]
            (Pedido.leida (Muestras.pedido_en "pendiente"), [])))
  = Pedido.con_fechaEnvio (Some 200)
      (Pedido.con_fechaPago (Some 100) (Muestras.pedido_en "enviado")).
Proof. reflexivity. Qed.

(** ** Orders: the outcome of a cancellation *)

Section BucleDeCancelar.

Import Pedido.

Variable this : Instancia.

Lemma bucle_devolver_missing (detalles : list DetallePedido.Fila)
  (productos : Producto.Tabla) :
  forallb (sin_producto productos) detalles = true ->
  forOf detalles devolver (this, productos) = (Ok tt, (this, productos)).
Proof.
  induction detalles as [| d ds IH]; simpl; [reflexivity |].
  intros H. apply andb_true_iff in H. destruct H as [Hd Hds].
  unfold bind at 1. unfold devolver at 1. unfold sin_producto in Hd.
  destruct (Producto.findByPk (DetallePedido.productoId d) productos);
    [discriminate | now apply IH].
Qed.

Lemma bucle_devolver_present (detalles : list DetallePedido.Fila)
  (productos : Producto.Tabla) :
  forallb (sin_producto productos) detalles = false ->
  fst (forOf detalles devolver (this, productos)) = Throw (Error "Stock insuficiente").
Proof.
  induction detalles as [| d ds IH]; simpl; [discriminate |].
  intros H. unfold bind at 1. unfold devolver at 1. unfold sin_producto in H at 1.
  destruct (Producto.findByPk (DetallePedido.productoId d) productos) as [producto |].
  - rewrite aumentarStock_run.
    destruct (snd (Producto.hayStock (DetallePedido.cantidad d) (producto, productos)))
      as [producto' productos'].
    reflexivity.
  - simpl in H. now apply IH.
Qed.

End BucleDeCancelar.

(** X4. The three outcomes of [cancelar]. An order that is neither
    pendiente nor pagado: "No se puede cancelar este pedido", nothing
    touched. A cancellable order none of whose lines names a product of
    the table (no lines at all included): the order is stored as
    cancelado and no product is touched. A cancellable order with a line
    whose product exists: "Stock insuficiente", and the order is left as
    it was. So an order is cancelled only if none of its products is
    still in the table. *)
Theorem cancelar_outcome (ahora : Z) (tabla_detalles : DetallePedido.Tabla)
  (this : Pedido.Instancia) (productos : Producto.Tabla) :
  let detalles :=
    filter (fun d => DetallePedido.pedidoId d =? Pedido.id (Pedido.dataValues this))
      tabla_detalles in
  let r := Pedido.cancelar ahora tabla_detalles (this, productos) in
  if Pedido.puedeSerCancelado this then
    if forallb (Pedido.sin_producto productos) detalles then
      exists f,
        r = (Ok tt, (Pedido.leida f, productos))
        /\ Pedido.estado f = "cancelado"
        /\ Pedido.inmutables f = Pedido.inmutables (Pedido.dataValues this)
    else
      fst r = Throw (Error "Stock insuficiente") /\ fst (snd r) = this
  else
    r = (Throw (Error "No se puede cancelar este pedido"), (this, productos)).
Proof.
  intros detalles r.
  assert (R : r = (this0 <- Pedido.en_pedido get ;;
                   if negb (Pedido.puedeSerCancelado this0) then
                     throw (Error "No se puede cancelar este pedido")
                   else
                     forOf
                       (filter (fun d => DetallePedido.pedidoId d
                                         =? Pedido.id (Pedido.dataValues this0))
                          tabla_detalles) Pedido.devolver ;;;
                     Pedido.en_pedido
                       (Pedido.asignar (Pedido.con_estado "cancelado") ;;;
                        Pedido.save ahora)) (this, productos)) by reflexivity.
  unfold bind at 1 in R. simpl in R. fold detalles in R.
  destruct (Pedido.puedeSerCancelado this); simpl in R; [| exact R].
  destruct (forallb (Pedido.sin_producto productos) detalles) eqn:Hf.
  - unfold bind at 1 in R.
    rewrite (bucle_devolver_missing this detalles productos Hf) in R.
    unfold Pedido.en_pedido in R.
    rewrite (asignar_estado_y_save_exact ahora "cancelado" this eq_refl) in R.
    eexists. split; [exact R |]. split.
    + now rewrite sellar_estado.
    + now rewrite sellar_inmutables.
  - pose proof (bucle_devolver_present this detalles productos Hf) as Ht.
    pose proof (devolver_keeps_pedido detalles this productos) as K.
    unfold bind at 1 in R.
    destruct (forOf detalles Pedido.devolver (this, productos)) as [res [this' productos']].
    simpl in Ht, K. subst res this'. rewrite R. simpl. auto.
Qed.

(** ** Orders and the stored stock *)

Section StockEnLaHistoria.

Import Pedido.

Variable ahora : Z.
Variable tabla_detalles : DetallePedido.Tabla.

Lemma devolver_sin_negativos (d : DetallePedido.Fila) (this : Instancia)
  (productos : Producto.Tabla) :
  Producto.sin_negativos productos ->
  Producto.sin_negativos (snd (snd (devolver d (this, productos)))).
Proof.
  intros H. unfold devolver.
  destruct (Producto.findByPk (DetallePedido.productoId d) productos) as [producto |];
    [| exact H].
  rewrite aumentarStock_run.
  pose proof (hayStock_keeps_stored_stock_nonnegative (DetallePedido.cantidad d)
                producto productos H) as K.
  destruct (snd (Producto.hayStock (DetallePedido.cantidad d) (producto, productos)))
    as [producto' productos'].
  exact K.
Qed.

Lemma bucle_sin_negativos (detalles : list DetallePedido.Fila) (this : Instancia)
  (productos : Producto.Tabla) :
  Producto.sin_negativos productos ->
  Producto.sin_negativos (snd (snd (forOf detalles devolver (this, productos)))).
Proof.
  revert this productos. induction detalles as [| d ds IH]; intros this productos H.
  - exact H.
  - simpl. unfold bind at 1.
    pose proof (devolver_sin_negativos d this productos H) as K.
    destruct (devolver d (this, productos)) as [[[] | e] [this' productos']].
    + now apply IH.
    + exact K.
Qed.

Lemma cancelar_sin_negativos (this : Instancia) (productos : Producto.Tabla) :
  Producto.sin_negativos productos ->
  Producto.sin_negativos (snd (snd (cancelar ahora tabla_detalles (this, productos)))).
Proof.
  intros H. unfold cancelar. unfold bind at 1. simpl.
  destruct (puedeSerCancelado this); simpl; [| exact H].
  set (detalles := filter _ tabla_detalles).
  pose proof (bucle_sin_negativos detalles this productos H) as K.
  unfold bind at 1.
  destruct (forOf detalles devolver (this, productos)) as [[[] | e] [this' productos']];
    [| exact K].
  unfold en_pedido.
  destruct ((asignar (con_estado "cancelado");;; save ahora) this') as [r this''].
  exact K.
Qed.

End StockEnLaHistoria.

(** X5. Whatever requests are made on an order ([cambiarEstado],
    [cancelar], in any number and order, failing or not), no stored stock
    becomes negative: if every product of the table has a stock of zero
    or more before, so it has after. *)
Theorem historia_keeps_stock_nonnegative (ahora : Z)
  (tabla_detalles : DetallePedido.Tabla) (ops : list Pedido.Operacion)
  (this : Pedido.Instancia) (productos : Producto.Tabla) :
  Forall (fun f => 0 <= Producto.stock f) productos ->
  Forall (fun f => 0 <= Producto.stock f)
    (snd (Pedido.historia ahora tabla_detalles ops (this, productos))).
Proof.
  revert this productos. induction ops as [| op ops IH]; intros this productos H.
  - exact H.
  - simpl.
    assert (K : Producto.sin_negativos
                  (snd (snd (Pedido.ejecutar ahora tabla_detalles op (this, productos))))).
    { destruct op as [nuevoEstado |]; simpl.
      - unfold Pedido.en_pedido.
        destruct (Pedido.cambiarEstado ahora nuevoEstado this) as [r this']. exact H.
      - now apply cancelar_sin_negativos. }
    destruct (snd (Pedido.ejecutar ahora tabla_detalles op (this, productos)))
      as [this' productos'].
    now apply IH.
Qed.

Lemma historia_keeps_stock_nonnegative_witness :
  Forall (fun f => 0 <= Producto.stock f) [Muestras.producto_5]
  /\ Forall (fun f => 0 <= Producto.stock f)
       (snd (Pedido.historia Muestras.ahora
               [DetallePedido.mkFila 1 1 (-9) 999]
               [Pedido.Cancelar; Pedido.CambiarEstado "pagado"; Pedido.Cancelar]
               (Pedido.leida (Muestras.pedido_en "pendiente"), [Muestras.producto_5]))).
Proof.
  assert (H : Forall (fun f => 0 <= Producto.stock f) [Muestras.producto_5]).
  { constructor; [simpl; lia | constructor]. }
  split; [exact H |].
  exact (historia_keeps_stock_nonnegative Muestras.ahora
           [DetallePedido.mkFila 1 1 (-9) 999]
           [Pedido.Cancelar; Pedido.CambiarEstado "pagado"; Pedido.Cancelar]
           (Pedido.leida (Muestras.pedido_en "pendiente")) [Muestras.producto_5] H).
Defined.

(** ** Products: reading back what was written *)

Section LecturaDeProducto.

Import Producto.

Lemma findByPk_some (k : Z) (t : Tabla) (this : Instancia) :
  findByPk k t = Some this ->
  exists f, find (fun g => id g =? k) t = Some f /\ this = leida f /\ id f = k.
Proof.
  unfold findByPk. destruct (find (fun g => id g =? k) t) as [f |] eqn:Hf; [| discriminate].
  intros [= <-]. exists f. repeat split.
  apply find_some in Hf. now apply Z.eqb_eq.
Qed.

Lemma con_stock_same (f : Fila) : con_stock (stock f) f = f.
Proof. now destruct f. Qed.

Lemma hayStock_table (cantidad : Z) (f : Fila) (t : Tabla) :
  snd (snd (hayStock cantidad (leida f, t)))
  = if (cantidad =? 0) || (stock f + cantidad <? 0) then t
    else update_stock (id f) (stock f + cantidad) t.
Proof.
  unfold hayStock, save, changed_stock, set_stock, leida. simpl.
  destruct (cantidad =? 0) eqn:E0.
  - apply Z.eqb_eq in E0. subst. rewrite Z.add_0_r, Z.eqb_refl. reflexivity.
  - replace (stock f + cantidad =? stock f) with false.
    + simpl. now destruct (stock f + cantidad <? 0).
    + symmetry. apply Z.eqb_neq. apply Z.eqb_neq in E0. lia.
Qed.

Lemma find_filter_other (k j : Z) (t : Tabla) :
  find (fun g => id g =? k) (filter (fun g => negb (id g =? j)) t)
  = if k =? j then None else find (fun g => id g =? k) t.
Proof.
  induction t as [| f t IH]; simpl.
  - now destruct (k =? j).
  - destruct (id f =? j) eqn:Ej; simpl.
    + rewrite IH. destruct (k =? j) eqn:Ekj; [reflexivity |].
      destruct (id f =? k) eqn:Ek; [| reflexivity].
      apply Z.eqb_eq in Ej, Ek. apply Z.eqb_neq in Ekj. congruence.
    + destruct (id f =? k) eqn:Ek.
      * apply Z.eqb_eq in Ek. subst. now rewrite Ej.
      * exact IH.
Qed.

Lemma destroy_table (fs : Multer.SistemaDeArchivos) (uploadPath : string)
  (producto : Fila) (t : Tabla) (out : list Multer.Consola) :
  fst (destroy fs uploadPath producto (t, out)) = Ok tt
  /\ fst (snd (destroy fs uploadPath producto (t, out)))
     = filter (fun g => negb (id g =? id producto)) t.
Proof.
  unfold destroy, beforeDestroy.
  destruct (imagen producto) as [archivo |]; simpl; [| auto].
  destruct (String.eqb archivo ""); simpl; [auto |].
  unfold bind.
  destruct (deleteFile_never_throws fs uploadPath archivo out) as (b & linea & ->).
  destruct b; simpl; auto.
Qed.

Lemma hayStock_leida (cantidad : Z) (f : Fila) (t : Tabla) :
  cantidad <> 0 ->
  0 <= stock f + cantidad ->
  hayStock cantidad (leida f, t)
  = (Ok (VPromise (Ok tt)),
     (leida (con_stock (stock f + cantidad) f),
      update_stock (id f) (stock f + cantidad) t)).
Proof.
  intros H0 Hs. unfold hayStock, save, changed_stock, set_stock, leida. simpl.
  replace (stock f + cantidad =? stock f) with false
    by (symmetry; apply Z.eqb_neq; lia).
  replace (stock f + cantidad <? 0) with false
    by (symmetry; apply Z.ltb_ge; lia).
  reflexivity.
Qed.


End LecturaDeProducto.

(** ** Checkout *)

Section PasoDeStock.

Variable linea : Carrito.Fila.
Variable productos : Producto.Tabla.




End PasoDeStock.


(** X6. What [hayStock] asks about is written. For a product just read
    from the table, with a stock and a quantity that fit the INTEGER
    column and a sum that does not exceed it: once the promise
    [hayStock(cantidad)] returns has settled, reading the product again
    gives the stock plus the quantity when that sum is at least 0, and
    the row as it was when the sum is negative (the validator refuses
    the write). *)
Theorem hayStock_is_stored (k cantidad : Z) (t : Producto.Tabla)
  (this : Producto.Instancia) :
  Producto.findByPk k t = Some this ->
  Producto.en_columna (Producto.stock (Producto.dataValues this)) ->
  Producto.en_columna cantidad ->
  Producto.stock (Producto.dataValues this) + cantidad <= 2147483647 ->
  Producto.findByPk k (snd (snd (Producto.hayStock cantidad (this, t))))
  = Some (Producto.leida
            (if Producto.stock (Producto.dataValues this) + cantidad <? 0
             then Producto.dataValues this
             else Producto.con_stock (Producto.stock (Producto.dataValues this) + cantidad)
                    (Producto.dataValues this))).
Proof.
  intros H _ _ _. destruct (findByPk_some k t this H) as (f & Hf & -> & Hk).
  rewrite hayStock_table. cbn [Producto.leida Producto.dataValues].
  destruct (cantidad =? 0) eqn:E0; simpl orb.
  - apply Z.eqb_eq in E0. subst cantidad. rewrite Z.add_0_r, con_stock_same.
    rewrite H. now destruct (Producto.stock f <? 0).
  - destruct (Producto.stock f + cantidad <? 0); [exact H |].
    unfold Producto.findByPk. rewrite find_update_stock, Hk, Z.eqb_refl, Hf.
    reflexivity.
Qed.

Lemma hayStock_is_stored_witness :
  Producto.findByPk 1 [Muestras.producto_5; Muestras.producto_foto]
  = Some (Producto.leida Muestras.producto_5)
  /\ Producto.findByPk 1
       (snd (snd (Producto.hayStock 100
                    (Producto.leida Muestras.producto_5,
                     [Muestras.producto_5; Muestras.producto_foto]))))
     = Some (Producto.leida (Producto.con_stock 105 Muestras.producto_5)).
Proof.
  split; [reflexivity |].
  apply (hayStock_is_stored 1 100 [Muestras.producto_5; Muestras.producto_foto]
           (Producto.leida Muestras.producto_5) eq_refl).
  - unfold Producto.en_columna. simpl. lia.
  - unfold Producto.en_columna. lia.
  - simpl. lia.
Defined.

(** X7. After [destroy] the product cannot be found by its key, whatever
    the file system answered about its image, and every product with
    another key is found as before. *)
Theorem destroy_then_findByPk (fs : Multer.SistemaDeArchivos) (uploadPath : string)
  (producto : Producto.Fila) (t : Producto.Tabla) (out : list Multer.Consola) (k : Z) :
  Producto.findByPk k (fst (snd (Producto.destroy fs uploadPath producto (t, out))))
  = if k =? Producto.id producto then None else Producto.findByPk k t.
Proof.
  destruct (destroy_table fs uploadPath producto t out) as [_ ->].
  unfold Producto.findByPk. rewrite find_filter_other.
  now destruct (k =? Producto.id producto).
Qed.

(** ** The cart *)

Lemma filter_split_length {A : Type} (P : A -> bool) (l : list A) :
  List.length l
  = (List.length (filter P l) + List.length (filter (fun x => negb (P x)) l))%nat.
Proof.
  induction l as [| x l IH]; simpl; [reflexivity |].
  destruct (P x); simpl; lia.
Qed.

Lemma filter_twice {A : Type} (P : A -> bool) (l : list A) :
  filter P (filter P l) = filter P l.
Proof.
  induction l as [| x l IH]; simpl; [reflexivity |].
  destruct (P x) eqn:E; simpl; [rewrite E; now f_equal | exact IH].
Qed.

(** X8. [vaciarCarrito] returns the number of lines the user had; the
    lines it leaves and that number add up to the lines there were; the
    user has no line left; and a second call returns 0 and changes
    nothing. *)
Theorem vaciarCarrito_accounts (usuario : Z) (tabla : Carrito.Tabla) :
  let r := Carrito.vaciarCarrito usuario tabla in
  exists n,
    fst r = Ok n
    /\ n = Z.of_nat (List.length (filter (fun l => Carrito.usuarioId l =? usuario) tabla))
    /\ Z.of_nat (List.length tabla) = n + Z.of_nat (List.length (snd r))
    /\ filter (fun l => Carrito.usuarioId l =? usuario) (snd r) = []
    /\ Carrito.vaciarCarrito usuario (snd r) = (Ok 0, snd r).
Proof.
  intros r. eexists. split; [reflexivity |]. split; [reflexivity |].
  pose proof (vaciarCarrito_leaves_none usuario tabla) as Hn. fold r in Hn.
  split; [| split; [exact Hn |]].
  - unfold r, Carrito.vaciarCarrito. cbn [snd].
    rewrite (filter_split_length (fun l => Carrito.usuarioId l =? usuario) tabla).
    now rewrite Nat2Z.inj_add.
  - unfold Carrito.vaciarCarrito at 1. rewrite Hn.
    unfold r, Carrito.vaciarCarrito. cbn [snd List.length Z.of_nat].
    now rewrite filter_twice.
Qed.

(** X10. Changing the quantity of a cart line never fails for lack of
    stock. When the quantity changed (it is at least 1, the validator of
    the column has run before the hook), the product exists with a stock
    of at least 0, and the stock plus the quantity fits the INTEGER
    column: the hook returns normally, however small the stock is, and
    once the write that [hayStock] started has landed the product read
    again has its stock raised by that quantity. *)
Theorem carrito_beforeUpdate_never_lacks_stock (itemCarrito : Carrito.Instancia)
  (productos : Producto.Tabla) (producto : Producto.Instancia) :
  Carrito.changed_cantidad itemCarrito = true ->
  Producto.findByPk (Carrito.productoId (Carrito.dataValues itemCarrito)) productos
  = Some producto ->
  1 <= Carrito.cantidad (Carrito.dataValues itemCarrito) ->
  0 <= Producto.stock (Producto.dataValues producto) ->
  Producto.stock (Producto.dataValues producto)
  + Carrito.cantidad (Carrito.dataValues itemCarrito) <= 2147483647 ->
  let cantidad := Carrito.cantidad (Carrito.dataValues itemCarrito) in
  let r := Carrito.beforeUpdate itemCarrito productos in
  fst r = Ok tt
  /\ Producto.findByPk (Carrito.productoId (Carrito.dataValues itemCarrito)) (snd r)
     = Some (Producto.leida
               (Producto.con_stock
                  (Producto.stock (Producto.dataValues producto) + cantidad)
                  (Producto.dataValues producto))).
Proof.
  intros Hc Hp Hq Hs _ cantidad r.
  destruct (findByPk_some _ _ _ Hp) as (f & Hf & -> & Hk).
  cbn [Producto.leida Producto.dataValues] in *.
  assert (R : r = (Ok tt, Producto.update_stock (Producto.id f)
                            (Producto.stock f + cantidad) productos)).
  { unfold r, Carrito.beforeUpdate. rewrite Hc, Hp. fold cantidad.
    rewrite hayStock_leida by (unfold cantidad; lia). reflexivity. }
  rewrite R. split; [reflexivity |]. cbn [snd].
  unfold Producto.findByPk. rewrite find_update_stock, Hk, Z.eqb_refl, Hf.
  reflexivity.
Qed.

Lemma carrito_beforeUpdate_never_lacks_stock_witness :
  Carrito.changed_cantidad
    (Carrito.mkInstancia (Carrito.mkFila 1 7 1 50 999) (Carrito.mkFila 1 7 1 1 999)) = true
  /\ Producto.findByPk 1 [Muestras.producto_5] = Some (Producto.leida Muestras.producto_5)
  /\ fst (Carrito.beforeUpdate
            (Carrito.mkInstancia (Carrito.mkFila 1 7 1 50 999) (Carrito.mkFila 1 7 1 1 999))
            [Muestras.producto_5]) = Ok tt
  /\ Producto.findByPk 1
       (snd (Carrito.beforeUpdate
               (Carrito.mkInstancia (Carrito.mkFila 1 7 1 50 999)
                  (Carrito.mkFila 1 7 1 1 999))
               [Muestras.producto_5]))
     = Some (Producto.leida (Producto.con_stock 55 Muestras.producto_5)).
Proof.
  split; [reflexivity |]. split; [reflexivity |].
  apply (carrito_beforeUpdate_never_lacks_stock
           (Carrito.mkInstancia (Carrito.mkFila 1 7 1 50 999)
              (Carrito.mkFila 1 7 1 1 999))
           [Muestras.producto_5] (Producto.leida Muestras.producto_5)
           eq_refl eq_refl); simpl; lia.
Defined.

(** ** Invariants of computations *)

Section Respeta.

Context {S : Type}.
Variable R : S -> S -> Prop.
Hypothesis R_refl : forall s, R s s.
Hypothesis R_trans : forall s1 s2 s3, R s1 s2 -> R s2 s3 -> R s1 s3.

Lemma respeta_ret {A : Type} (a : A) : respeta R (ret a : M S A).
Proof. intros s. apply R_refl. Qed.

Lemma respeta_throw {A : Type} (e : Excepcion) : respeta R (throw e : M S A).
Proof. intros s. apply R_refl. Qed.

Lemma respeta_get : respeta R (get : M S S).
Proof. intros s. apply R_refl. Qed.

Lemma respeta_bind {A B : Type} (m : M S A) (k : A -> M S B) :
  respeta R m -> (forall a, respeta R (k a)) -> respeta R (bind m k).
Proof.
  intros Hm Hk s. unfold bind. specialize (Hm s).
  destruct (m s) as [[a | e] s1]; simpl in *; [| exact Hm].
  eapply R_trans; [exact Hm | apply Hk].
Qed.

Lemma respeta_try_catch {A : Type} (m : M S A) (h : Excepcion -> M S A) :
  respeta R m -> (forall e, respeta R (h e)) -> respeta R (try_catch m h).
Proof.
  intros Hm Hh s. unfold try_catch. specialize (Hm s).
  destruct (m s) as [[a | e] s1]; simpl in *; [exact Hm |].
  eapply R_trans; [exact Hm | apply Hh].
Qed.

Lemma respeta_forOf {A : Type} (l : list A) (cuerpo : A -> M S unit) :
  (forall x, respeta R (cuerpo x)) -> respeta R (forOf l cuerpo).
Proof.
  intros H. induction l as [| x l IH]; simpl.
  - apply respeta_ret.
  - apply respeta_bind; [apply H | intros _; exact IH].
Qed.

End Respeta.

(** ** The cascade on any storage: what it can and cannot change *)

Lemma Forall2_same {A : Type} (R : A -> A -> Prop) (l : list A) :
  (forall x, R x x) -> Forall2 R l l.
Proof. intros H. induction l; constructor; auto. Qed.

Lemma Forall2_map_right {A : Type} (R : A -> A -> Prop) (f : A -> A) (l : list A) :
  (forall x, R x (f x)) -> Forall2 R l (map f l).
Proof. intros H. induction l; simpl; constructor; auto. Qed.

Lemma Forall2_compose {A : Type} (R : A -> A -> Prop) (l1 l2 l3 : list A) :
  (forall x y z, R x y -> R y z -> R x z) ->
  Forall2 R l1 l2 -> Forall2 R l2 l3 -> Forall2 R l1 l3.
Proof.
  intros Ht H12. revert l3. induction H12 as [| x y l1 l2 Hxy _ IH]; intros l3 H23.
  - inversion H23. constructor.
  - inversion H23 as [| y' z l2' l3' Hyz Hrest]; subst.
    constructor; [eapply Ht; eauto | now apply IH].
Qed.

Lemma Forall2_filter_length {A : Type} (R : A -> A -> Prop) (P : A -> bool)
  (l l' : list A) :
  (forall x y, R x y -> P y = P x) ->
  Forall2 R l l' ->
  List.length (filter P l') = List.length (filter P l).
Proof.
  intros HP H. induction H as [| x y l l' Hxy _ IH]; simpl; [reflexivity |].
  rewrite (HP x y Hxy). destruct (P x); simpl; now rewrite IH.
Qed.

Section SoloApaga.

Import Catalogo.

Variable rechaza : Rechazo.
Variable tx : option Z.

Lemma solo_apaga_refl (c : t) : solo_apaga c c.
Proof.
  repeat split; apply Forall2_same; intros x; now left.
Qed.

Lemma categoria_apagada_trans (x y z : FilaCategoria) :
  categoria_apagada x y -> categoria_apagada y z -> categoria_apagada x z.
Proof. unfold categoria_apagada. intros [-> | ->] [-> | ->]; auto. Qed.

Lemma subcategoria_apagada_trans (x y z : FilaSubcategoria) :
  subcategoria_apagada x y -> subcategoria_apagada y z -> subcategoria_apagada x z.
Proof. unfold subcategoria_apagada. intros [-> | ->] [-> | ->]; auto. Qed.

Lemma producto_apagado_trans (x y z : Producto.Fila) :
  producto_apagado x y -> producto_apagado y z -> producto_apagado x z.
Proof. unfold producto_apagado. intros [-> | ->] [-> | ->]; auto. Qed.

Lemma solo_apaga_trans (c1 c2 c3 : t) :
  solo_apaga c1 c2 -> solo_apaga c2 c3 -> solo_apaga c1 c3.
Proof.
  intros (A1 & B1 & C1) (A2 & B2 & C2). repeat split.
  - exact (Forall2_compose _ _ _ _ categoria_apagada_trans A1 A2).
  - exact (Forall2_compose _ _ _ _ subcategoria_apagada_trans B1 B2).
  - exact (Forall2_compose _ _ _ _ producto_apagado_trans C1 C2).
Qed.

Lemma consulta_solo_apaga (n : NombreTabla) (k : Z) (efecto : t -> t) :
  (forall c, solo_apaga c (efecto c)) ->
  respeta solo_apaga (consulta rechaza tx n k efecto).
Proof.
  intros H c. unfold consulta.
  destruct (rechaza n k); simpl; [apply solo_apaga_refl |].
  exact (H c).
Qed.

Lemma producto_update_solo_apaga (producto : Producto.Fila) :
  respeta solo_apaga (producto_update rechaza tx false producto).
Proof.
  unfold producto_update.
  destruct (Bool.eqb (Producto.activo producto) false);
    [apply respeta_ret, solo_apaga_refl |].
  apply consulta_solo_apaga. intros c. unfold escribir_producto. repeat split; simpl.
  - apply Forall2_same. now left.
  - apply Forall2_same. now left.
  - apply Forall2_map_right. intros f.
    destruct (Producto.id f =? Producto.id producto); [now right | now left].
Qed.

Lemma subcategoria_update_solo_apaga (leida : FilaSubcategoria) :
  respeta solo_apaga (Subcategoria.update rechaza tx false leida).
Proof.
  unfold Subcategoria.update.
  destruct (Subcategoria.changed_activo _); [| apply respeta_ret, solo_apaga_refl].
  apply (respeta_bind _ solo_apaga_trans).
  - apply consulta_solo_apaga. intros c. unfold escribir_subcategoria.
    repeat split; simpl.
    + apply Forall2_same. now left.
    + apply Forall2_map_right. intros f.
      destruct (sub_id f =? sub_id leida); [now right | now left].
    + apply Forall2_same. now left.
  - intros _. unfold Subcategoria.afterUpdate.
    destruct (_ && _); [| apply respeta_ret, solo_apaga_refl].
    apply (respeta_try_catch _ solo_apaga_trans);
      [| intros e; apply respeta_throw, solo_apaga_refl].
    apply (respeta_bind _ solo_apaga_trans); [apply respeta_get, solo_apaga_refl |].
    intros c. apply (respeta_forOf _ solo_apaga_refl solo_apaga_trans).
    intros p. apply producto_update_solo_apaga.
Qed.

Lemma categoria_afterUpdate_solo_apaga (this : Categoria.Instancia) :
  respeta solo_apaga (Categoria.afterUpdate rechaza tx this).
Proof.
  unfold Categoria.afterUpdate.
  destruct (_ && _); [| apply respeta_ret, solo_apaga_refl].
  apply (respeta_try_catch _ solo_apaga_trans);
    [| intros e; apply respeta_throw, solo_apaga_refl].
  apply (respeta_bind _ solo_apaga_trans); [apply respeta_get, solo_apaga_refl |].
  intros c. apply (respeta_bind _ solo_apaga_trans).
  - apply (respeta_forOf _ solo_apaga_refl solo_apaga_trans).
    intros s. apply subcategoria_update_solo_apaga.
  - intros _. apply (respeta_bind _ solo_apaga_trans);
      [apply respeta_get, solo_apaga_refl |].
    intros c'. apply (respeta_forOf _ solo_apaga_refl solo_apaga_trans).
    intros p. apply producto_update_solo_apaga.
Qed.

Lemma solo_apaga_counts (this : FilaCategoria) (c c' : t) :
  solo_apaga c c' ->
  Categoria.getSubcategorias this c' = Categoria.getSubcategorias this c
  /\ Categoria.getProductos this c' = Categoria.getProductos this c.
Proof.
  intros (_ & B & C). unfold Categoria.getSubcategorias, Categoria.getProductos. split.
  - f_equal. apply (Forall2_filter_length subcategoria_apagada); [| exact B].
    intros x y [-> | ->]; reflexivity.
  - f_equal. apply (Forall2_filter_length producto_apagado); [| exact C].
    intros x y [-> | ->]; reflexivity.
Qed.

Lemma categoria_afterUpdate_keeps_categorias (this : Categoria.Instancia) :
  respeta mismas_categorias (Categoria.afterUpdate rechaza tx this).
Proof.
  assert (Hr : forall c, mismas_categorias c c) by reflexivity.
  assert (Ht : forall c1 c2 c3,
             mismas_categorias c1 c2 -> mismas_categorias c2 c3 ->
             mismas_categorias c1 c3).
  { unfold mismas_categorias. intros c1 c2 c3 H1 H2. now rewrite H2. }
  assert (Hp : forall p, respeta mismas_categorias (producto_update rechaza tx false p)).
  { intros p c. unfold producto_update, consulta.
    destruct (Bool.eqb (Producto.activo p) false); [reflexivity |].
    destruct (rechaza Productos (Producto.id p)); reflexivity. }
  assert (Hs : forall s, respeta mismas_categorias (Subcategoria.update rechaza tx false s)).
  { intros s. unfold Subcategoria.update.
    destruct (Subcategoria.changed_activo _); [| now apply respeta_ret].
    apply (respeta_bind _ Ht).
    - intros c. unfold consulta.
      destruct (rechaza Subcategorias (sub_id s)); reflexivity.
    - intros _. unfold Subcategoria.afterUpdate.
      destruct (_ && _); [| now apply respeta_ret].
      apply (respeta_try_catch _ Ht); [| intros e; now apply respeta_throw].
      apply (respeta_bind _ Ht); [now apply respeta_get |].
      intros c. now apply (respeta_forOf _ Hr Ht). }
  unfold Categoria.afterUpdate.
  destruct (_ && _); [| now apply respeta_ret].
  apply (respeta_try_catch _ Ht); [| intros e; now apply respeta_throw].
  apply (respeta_bind _ Ht); [now apply respeta_get |].
  intros c. apply (respeta_bind _ Ht).
  - now apply (respeta_forOf _ Hr Ht).
  - intros _. apply (respeta_bind _ Ht); [now apply respeta_get |].
    intros c'. now apply (respeta_forOf _ Hr Ht).
Qed.

End SoloApaga.


(** X14. [getSubcategorias] and [getProductos] count the rows of a
    category whether they are active or not: deactivating or reactivating
    any category, whatever the storage refuses, leaves both counts of
    every category as they were. *)
Theorem counts_ignore_activo (rechaza : Catalogo.Rechazo) (tx : option Z) (valor : bool)
  (categoria this : Catalogo.FilaCategoria) (c : Catalogo.t) :
  Categoria.getSubcategorias this (snd (Categoria.update rechaza tx valor categoria c))
  = Categoria.getSubcategorias this c
  /\ Categoria.getProductos this (snd (Categoria.update rechaza tx valor categoria c))
     = Categoria.getProductos this c.
Proof.
  unfold Categoria.update.
  destruct (Categoria.changed_activo _); [| now split].
  unfold bind, Catalogo.consulta.
  destruct (rechaza Catalogo.Categorias (Catalogo.cat_id categoria)); [now split |].
  set (c1 := Catalogo.anotar _ _ _ _).
  set (this1 := Categoria.mkInstancia _ _).
  pose proof (categoria_afterUpdate_solo_apaga rechaza tx this1 c1) as H.
  destruct (Categoria.afterUpdate rechaza tx this1 c1) as [r c2].
  cbn [snd] in *. destruct (solo_apaga_counts this c1 c2 H) as [-> ->].
  split; reflexivity.
Qed.

(** X16. Outside a transaction, once the UPDATE of an active category of
    the table has been accepted, no subcategory can be created under it:
    [beforeCreate] throws for the inactive category, even if the cascade
    that followed was stopped by the storage. (The lookup of the hook
    carries no transaction, so it reads what is committed; outside a
    transaction that is every accepted statement.) *)
Theorem no_subcategoria_under_deactivated (rechaza : Catalogo.Rechazo)
  (categoria : Catalogo.FilaCategoria) (c : Catalogo.t)
  (subcategoria : Catalogo.FilaSubcategoria) :
  rechaza Catalogo.Categorias (Catalogo.cat_id categoria) = false ->
  Catalogo.cat_activo categoria = true ->
  In categoria (Catalogo.categorias c) ->
  Catalogo.sub_categoriaId subcategoria = Catalogo.cat_id categoria ->
  let c' := snd (Categoria.update rechaza None false categoria c) in
  Subcategoria.beforeCreate subcategoria c'
  = (Throw (Error "No se puede crear una subcategoria para una categoria inactiva"), c').
Proof.
  intros Hr Ha Hin Hk c'.
  assert (Hc : Catalogo.categorias c'
               = map (fun f => if Catalogo.cat_id f =? Catalogo.cat_id categoria
                               then Catalogo.mkFilaCategoria (Catalogo.cat_id f) false
                               else f) (Catalogo.categorias c)).
  { unfold c', Categoria.update, Categoria.changed_activo. simpl. rewrite Ha. simpl.
    unfold bind, Catalogo.consulta. rewrite Hr.
    set (c1 := Catalogo.anotar _ _ _ _).
    set (this1 := Categoria.mkInstancia _ _).
    pose proof (categoria_afterUpdate_keeps_categorias rechaza None this1 c1) as H.
    destruct (Categoria.afterUpdate rechaza None this1 c1) as [r c2].
    cbn [snd] in *. exact H. }
  unfold Subcategoria.beforeCreate. rewrite Hc, Hk. clear Hc.
  induction (Catalogo.categorias c) as [| f l IH]; [contradiction |].
  simpl. destruct (Catalogo.cat_id f =? Catalogo.cat_id categoria) eqn:E; simpl.
  - rewrite E. reflexivity.
  - rewrite E. apply IH. destruct Hin as [-> | Hin]; [| exact Hin].
    now rewrite Z.eqb_refl in E.
Qed.

Lemma no_subcategoria_under_deactivated_witness :
  Muestras.rechaza_sub_11 Catalogo.Categorias (Catalogo.cat_id Muestras.categoria_1) = false
  /\ Catalogo.cat_activo Muestras.categoria_1 = true
  /\ In Muestras.categoria_1 (Catalogo.categorias Muestras.catalogo_1)
  /\ fst (Subcategoria.beforeCreate (Catalogo.mkFilaSubcategoria 12 1 true)
            (snd (Categoria.update Muestras.rechaza_sub_11 None false Muestras.categoria_1
                    Muestras.catalogo_1)))
     = Throw (Error "No se puede crear una subcategoria para una categoria inactiva").
Proof.
  split; [reflexivity |]. split; [reflexivity |]. split; [now left |].
  rewrite (no_subcategoria_under_deactivated Muestras.rechaza_sub_11
             Muestras.categoria_1 Muestras.catalogo_1
             (Catalogo.mkFilaSubcategoria 12 1 true)
             eq_refl eq_refl (or_introl eq_refl) eq_refl).
  reflexivity.
Defined.

(** X15. Deactivating an active subcategory, when the storage refuses no
    statement: the call returns normally, the categories are untouched,
    the row of the subcategory is inactive, and the product rows under
    it are the same rows, all inactive. *)
Theorem subcategoria_update_deactivates_products (rechaza : Catalogo.Rechazo)
  (tx : option Z) (subcategoria : Catalogo.FilaSubcategoria) (c : Catalogo.t) :
  (forall n k, rechaza n k = false) ->
  Catalogo.sub_activo subcategoria = true ->
  exists c',
    Subcategoria.update rechaza tx false subcategoria c = (Ok tt, c')
    /\ Catalogo.categorias c' = Catalogo.categorias c
    /\ (forall f, In f (Catalogo.subcategorias c') ->
          Catalogo.sub_id f = Catalogo.sub_id subcategoria ->
          Catalogo.sub_activo f = false)
    /\ filter (fun p => Producto.subcategoriaId p =? Catalogo.sub_id subcategoria)
         (Catalogo.productos c')
       = map (Producto.con_activo false)
           (filter (fun p => Producto.subcategoriaId p =? Catalogo.sub_id subcategoria)
              (Catalogo.productos c)).
Proof.
  intros Hok Ha. rewrite (subcategoria_update_run rechaza tx Hok), Ha.
  eexists. split; [reflexivity |]. cbn [Catalogo.categorias Catalogo.subcategorias
                                         Catalogo.productos].
  split; [reflexivity |]. split.
  - intros f Hf Hid. apply in_map_iff in Hf. destruct Hf as (f0 & <- & _).
    unfold Catalogo.subcategoria_tras in *. simpl in *.
    destruct (Catalogo.sub_id f0 =? Catalogo.sub_id subcategoria) eqn:E; simpl in *.
    + reflexivity.
    + apply Z.eqb_neq in E. contradiction.
  - rewrite filter_map_same.
    + apply map_ext_in. intros p Hp.
      destruct (Producto.activo p) eqn:Ea.
      * apply producto_tras_member. unfold Catalogo.claves_activas.
        apply in_map, filter_In. split; [exact Hp | exact Ea].
      * rewrite producto_tras_inactive by exact Ea.
        symmetry. now apply con_activo_false_inactive.
    + intros p. now rewrite producto_tras_subcategoriaId.
Qed.

Lemma subcategoria_update_deactivates_products_witness :
  (forall n k, Muestras.acepta_todo n k = false)
  /\ Catalogo.sub_activo (Catalogo.mkFilaSubcategoria 10 1 true) = true
  /\ exists c',
       Subcategoria.update Muestras.acepta_todo None false
         (Catalogo.mkFilaSubcategoria 10 1 true) Muestras.catalogo_1 = (Ok tt, c')
       /\ filter (fun p => Producto.subcategoriaId p =? 10) (Catalogo.productos c')
          = [Producto.con_activo false Muestras.producto_5;
             Producto.con_activo false Muestras.producto_foto].
Proof.
  split; [reflexivity |]. split; [reflexivity |].
  destruct (subcategoria_update_deactivates_products Muestras.acepta_todo None
              (Catalogo.mkFilaSubcategoria 10 1 true) Muestras.catalogo_1
              (fun _ _ => eq_refl) eq_refl)
    as (c' & Hrun & _ & _ & Hp).
  exists c'. split; [exact Hrun | exact Hp].
Defined.

(** ** A cascade that returns has done its work *)

Section EjecucionSinRechazo.

Context {S : Type}.

(** A run that returns normally is the run of any computation that agrees
    with it on the runs that return. *)
Lemma bind_ok_ext {A B : Type} (m m' : M S A) (k k' : A -> M S B) (s : S) (b : B) :
  (forall a, fst (m s) = Ok a -> m s = m' s) ->
  (forall a s1 b1, fst (k a s1) = Ok b1 -> k a s1 = k' a s1) ->
  fst (bind m k s) = Ok b ->
  bind m k s = bind m' k' s.
Proof.
  intros Hm Hk. unfold bind.
  destruct (m s) as [[a | e] s1] eqn:E; simpl.
  - rewrite <- (Hm a eq_refl). intros H. exact (Hk a s1 b H).
  - discriminate.
Qed.

Lemma forOf_ok_ext {A : Type} (l : list A) (f g : A -> M S unit) (s : S) :
  (forall x s1, fst (f x s1) = Ok tt -> f x s1 = g x s1) ->
  fst (forOf l f s) = Ok tt ->
  forOf l f s = forOf l g s.
Proof.
  intros H. revert s. induction l as [| x l IH]; intros s; simpl; [reflexivity |].
  apply bind_ok_ext.
  - intros [] Hx. now apply H.
  - intros _ s1 [] Hs. now apply IH.
Qed.

Lemma try_catch_rethrow_ok_ext (m m' : M S unit) (s : S) :
  (fst (m s) = Ok tt -> m s = m' s) ->
  fst (try_catch m (fun error => throw error) s) = Ok tt ->
  try_catch m (fun error => throw error) s = try_catch m' (fun error => throw error) s.
Proof.
  intros H. unfold try_catch.
  destruct (m s) as [[[] | e] s1] eqn:E; simpl.
  - intros _. now rewrite <- (H eq_refl).
  - discriminate.
Qed.

End EjecucionSinRechazo.

Section CascadaQueVuelve.

Import Catalogo.

Variable rechaza : Rechazo.
Variable tx : option Z.

Let acepta : Rechazo := fun _ _ => false.

Lemma consulta_ok_ext (n : NombreTabla) (k : Z) (efecto : t -> t) (c : t) :
  fst (consulta rechaza tx n k efecto c) = Ok tt ->
  consulta rechaza tx n k efecto c = consulta acepta tx n k efecto c.
Proof.
  unfold consulta, acepta. destruct (rechaza n k); [discriminate | reflexivity].
Qed.

Lemma producto_update_ok_ext (p : Producto.Fila) (c : t) :
  fst (producto_update rechaza tx false p c) = Ok tt ->
  producto_update rechaza tx false p c = producto_update acepta tx false p c.
Proof.
  unfold producto_update.
  destruct (Bool.eqb (Producto.activo p) false); [reflexivity |].
  apply consulta_ok_ext.
Qed.

Lemma subcategoria_update_ok_ext (s : FilaSubcategoria) (c : t) :
  fst (Subcategoria.update rechaza tx false s c) = Ok tt ->
  Subcategoria.update rechaza tx false s c = Subcategoria.update acepta tx false s c.
Proof.
  unfold Subcategoria.update.
  destruct (Subcategoria.changed_activo _); [| reflexivity].
  apply bind_ok_ext.
  - intros [] H. now apply consulta_ok_ext.
  - intros _ c1 [] H. revert H. unfold Subcategoria.afterUpdate.
    destruct (_ && _); [| reflexivity].
    apply try_catch_rethrow_ok_ext. apply bind_ok_ext; [reflexivity |].
    intros c2 c3 [] H. apply forOf_ok_ext; [| exact H].
    intros p c4. apply producto_update_ok_ext.
Qed.

Lemma categoria_update_ok_ext (categoria : FilaCategoria) (c : t) :
  fst (Categoria.update rechaza tx false categoria c) = Ok tt ->
  Categoria.update rechaza tx false categoria c
  = Categoria.update acepta tx false categoria c.
Proof.
  unfold Categoria.update.
  destruct (Categoria.changed_activo _); [| reflexivity].
  apply bind_ok_ext.
  - intros [] H. now apply consulta_ok_ext.
  - intros _ c1 [] H. revert H. unfold Categoria.afterUpdate.
    destruct (_ && _); [| reflexivity].
    apply try_catch_rethrow_ok_ext. apply bind_ok_ext; [reflexivity |].
    intros c2 c3 [] H. revert H. apply bind_ok_ext.
    + intros [] H. apply forOf_ok_ext; [| exact H].
      intros s c4. apply subcategoria_update_ok_ext.
    + intros _ c4 [] H. revert H. apply bind_ok_ext; [reflexivity |].
      intros c5 c6 [] H. apply forOf_ok_ext; [| exact H].
      intros p c7. apply producto_update_ok_ext.
Qed.

End CascadaQueVuelve.

(** On a storage that refuses nothing, the cascade leaves every row of
    the category, of its subcategories and of its products inactive. *)
Lemma cascada_apaga (rechaza : Catalogo.Rechazo) (tx : option Z)
  (categoria : Catalogo.FilaCategoria) (c : Catalogo.t) :
  (forall n k, rechaza n k = false) ->
  Catalogo.cat_activo categoria = true ->
  exists c',
    Categoria.update rechaza tx false categoria c = (Ok tt, c')
    /\ (forall f, In f (Catalogo.categorias c') ->
          Catalogo.cat_id f = Catalogo.cat_id categoria -> Catalogo.cat_activo f = false)
    /\ (forall s, In s (Catalogo.subcategorias c') ->
          Catalogo.sub_categoriaId s = Catalogo.cat_id categoria ->
          Catalogo.sub_activo s = false)
    /\ (forall p, In p (Catalogo.productos c') ->
          Producto.categoriaId p = Catalogo.cat_id categoria ->
          Producto.activo p = false).
Proof.
  intros Hok Hact.
  set (k := Catalogo.cat_id categoria).
  unfold Categoria.update, Categoria.changed_activo. simpl. rewrite Hact. simpl.
  unfold bind at 1. rewrite (consulta_accepted rechaza tx Hok).
  unfold Categoria.afterUpdate, Categoria.changed_activo. simpl. rewrite Hact. simpl.
  fold k.
  set (c0 := Catalogo.anotar Catalogo.Categorias k tx (Catalogo.escribir_categoria k false c)).
  unfold try_catch. unfold bind at 1. unfold get at 1.
  set (subs := filter (fun s => Catalogo.sub_categoriaId s =? k) (Catalogo.subcategorias c0)).
  destruct (bucle_subcategorias rechaza tx Hok subs c0)
    as (c1 & ks1 & nuevas1 & Hrun & Hc & Hsub & Hp & _ & _ & _).
  unfold bind at 1. rewrite Hrun. unfold bind at 1. unfold get at 1.
  rewrite (bucle_productos rechaza tx Hok).
  set (ks2 := Catalogo.claves_activas
                (filter (fun p => Producto.categoriaId p =? k) (Catalogo.productos c1))).
  eexists. split; [reflexivity |]. simpl. rewrite Hc, Hsub. simpl.
  split; [| split].
  - intros f Hf Hid. apply in_map_iff in Hf. destruct Hf as (f0 & <- & _).
    destruct (Catalogo.cat_id f0 =? k) eqn:E; [reflexivity |].
    apply Z.eqb_neq in E. contradiction.
  - intros s Hs Hcat. apply in_map_iff in Hs. destruct Hs as (s0 & <- & Hs0).
    unfold Catalogo.subcategoria_tras in *.
    destruct (existsb (Z.eqb (Catalogo.sub_id s0)) (Catalogo.subclaves_activas subs)) eqn:E;
      [reflexivity |].
    destruct (Catalogo.sub_activo s0) eqn:Ea; [| reflexivity].
    assert (Hm : existsb (Z.eqb (Catalogo.sub_id s0)) (Catalogo.subclaves_activas subs)
                 = true).
    { apply existsb_exists. exists (Catalogo.sub_id s0). split; [| apply Z.eqb_refl].
      unfold Catalogo.subclaves_activas. apply in_map, filter_In. split; [| exact Ea].
      unfold subs. apply filter_In. split; [exact Hs0 | now apply Z.eqb_eq]. }
    congruence.
  - intros p Hpin Hcat. apply in_map_iff in Hpin. destruct Hpin as (p1 & <- & Hp1).
    rewrite producto_tras_categoriaId in Hcat.
    destruct (Producto.activo p1) eqn:Ea.
    + rewrite producto_tras_member; [reflexivity |].
      unfold ks2, Catalogo.claves_activas. apply in_map, filter_In.
      split; [| exact Ea]. apply filter_In. split; [exact Hp1 | now apply Z.eqb_eq].
    + now rewrite producto_tras_inactive.
Qed.

(** X17. A partial cascade never reports success. On any storage, if
    deactivating an active category returns normally, then every row of
    that category, every subcategory of it and every product carrying its
    [categoriaId] is inactive. *)
Theorem categoria_update_returns_only_when_done (rechaza : Catalogo.Rechazo)
  (tx : option Z) (categoria : Catalogo.FilaCategoria) (c : Catalogo.t) :
  fst (Categoria.update rechaza tx false categoria c) = Ok tt ->
  Catalogo.cat_activo categoria = true ->
  let c' := snd (Categoria.update rechaza tx false categoria c) in
  (forall f, In f (Catalogo.categorias c') ->
     Catalogo.cat_id f = Catalogo.cat_id categoria -> Catalogo.cat_activo f = false)
  /\ (forall s, In s (Catalogo.subcategorias c') ->
        Catalogo.sub_categoriaId s = Catalogo.cat_id categoria ->
        Catalogo.sub_activo s = false)
  /\ (forall p, In p (Catalogo.productos c') ->
        Producto.categoriaId p = Catalogo.cat_id categoria ->
        Producto.activo p = false).
Proof.
  intros Hret Hact c'. unfold c'.
  rewrite (categoria_update_ok_ext rechaza tx categoria c Hret).
  destruct (cascada_apaga (fun _ _ => false) tx categoria c (fun _ _ => eq_refl) Hact)
    as (c2 & -> & H).
  exact H.
Qed.

(** A storage that refuses the UPDATE of subcategory 20 only: the cascade
    of category 1 never sends it and returns. *)
Lemma categoria_update_returns_only_when_done_witness :
  fst (Categoria.update
         (fun n k => match n with Catalogo.Subcategorias => k =? 20 | _ => false end)
         None false Muestras.categoria_1 Muestras.catalogo_1) = Ok tt
  /\ Catalogo.cat_activo Muestras.categoria_1 = true
  /\ (forall p,
        In p (Catalogo.productos
                (snd (Categoria.update
                        (fun n k =>
                           match n with Catalogo.Subcategorias => k =? 20 | _ => false end)
                        None false Muestras.categoria_1 Muestras.catalogo_1))) ->
        Producto.categoriaId p = Catalogo.cat_id Muestras.categoria_1 ->
        Producto.activo p = false).
Proof.
  split; [reflexivity |]. split; [reflexivity |].
  exact (proj2 (proj2 (categoria_update_returns_only_when_done
                         (fun n k =>
                            match n with Catalogo.Subcategorias => k =? 20 | _ => false end)
                         None Muestras.categoria_1 Muestras.catalogo_1 eq_refl eq_refl))).
Defined.

(** ** The bearer token of a request *)

Section Bearer.

Import Jwt.

Lemma prefix_split (p s : string) :
  String.prefix p s = true -> s = p ++ substring (String.length p) s.
Proof.
  revert s. induction p as [| a p IH]; intros s.
  - reflexivity.
  - destruct s as [| b s]; simpl; [discriminate |].
    destruct (Ascii.ascii_dec a b) as [-> | _]; [| discriminate].
    intros H. f_equal. now apply IH.
Qed.

Lemma prefix_append (p t : string) : String.prefix p (p ++ t) = true.
Proof.
  induction p as [| a p IH]; simpl; [now destruct t |].
  destruct (Ascii.ascii_dec a a) as [_ | N]; [exact IH | now elim N].
Qed.

Lemma substring_append (p t : string) : substring (String.length p) (p ++ t) = t.
Proof. induction p as [| a p IH]; simpl; [now destruct t | exact IH]. Qed.

End Bearer.

(** X18. [extractToken] returns a token exactly for the headers made of
    "Bearer " followed by that token, and the token is what follows the
    prefix; a missing header, an empty one or one with another scheme
    gives null. *)
Theorem extractToken_bearer (tokenHeader : option string) (token : string) :
  Jwt.extractToken tokenHeader = Some token
  <-> tokenHeader = Some ("Bearer " ++ token).
Proof.
  unfold Jwt.extractToken, Jwt.startsWith. split.
  - destruct tokenHeader as [h |]; [| discriminate].
    destruct (negb (String.eqb h "") && String.prefix "Bearer " h) eqn:E; [| discriminate].
    apply andb_true_iff in E. destruct E as [_ E].
    intros [= <-]. f_equal. exact (prefix_split "Bearer " h E).
  - intros ->.
    change ("Bearer " ++ token) with (String "B" ("earer " ++ token)) at 1.
    cbn [String.eqb negb andb].
    rewrite (prefix_append "Bearer " token).
    exact (f_equal Some (substring_append "Bearer " token)).
Qed.

(** ** The name of the image of a product *)

Section NombreDeImagen.

Import Producto.

Lemma minuscula_dot (c : ascii) : minuscula c = "."%char -> c = "."%char.
Proof.
  destruct c as [[] [] [] [] [] [] [] []]; vm_compute; intros H;
    first [reflexivity | discriminate H].
Qed.

Lemma minuscula_space (c : ascii) : minuscula c = " "%char -> c = " "%char.
Proof.
  destruct c as [[] [] [] [] [] [] [] []]; vm_compute; intros H;
    first [reflexivity | discriminate H].
Qed.

Lemma termina_en_split (sufijo s : string) :
  termina_en sufijo (minusculas s) = true ->
  exists raiz resto, s = raiz ++ resto /\ minusculas resto = sufijo.
Proof.
  induction s as [| c s IH]; cbn [minusculas termina_en].
  - rewrite orb_false_r. intros H. apply String.eqb_eq in H.
    exists "", "". split; [reflexivity | exact H].
  - intros H. apply orb_true_iff in H. destruct H as [H | H].
    + apply String.eqb_eq in H. exists "", (String c s). split; [reflexivity | exact H].
    + destruct (IH H) as (raiz & resto & -> & Hr).
      exists (String c raiz), resto. split; [reflexivity | exact Hr].
Qed.

Lemma minusculas_dot_space (resto ext : string) :
  minusculas resto = ". " ++ ext ->
  exists cola, resto = ". " ++ cola.
Proof.
  destruct resto as [| c1 [| c2 cola]]; simpl; try discriminate.
  intros [= H1 H2 _]. apply minuscula_dot in H1. apply minuscula_space in H2.
  subst. now exists cola.
Qed.

End NombreDeImagen.

(** X19. The validator of [imagen] accepts a name only if the name has a
    dot followed by a space in front of its extension: a file name whose
    extension comes right after the dot, as in foto.jpg, is refused. *)
Theorem imagen_valida_needs_dot_space (nombre : string) :
  Producto.imagen_valida nombre = true ->
  exists raiz cola, nombre = raiz ++ ". " ++ cola.
Proof.
  unfold Producto.imagen_valida. intros H.
  apply existsb_exists in H. destruct H as (ext & _ & H).
  destruct (termina_en_split _ _ H) as (raiz & resto & -> & Hr).
  destruct (minusculas_dot_space resto ext Hr) as (cola & ->).
  now exists raiz, cola.
Qed.

Lemma imagen_valida_needs_dot_space_witness :
  Producto.imagen_valida "foto. PNG" = true
  /\ Producto.imagen_valida "foto.png" = false
  /\ exists raiz cola, "foto. PNG" = raiz ++ ". " ++ cola.
Proof.
  split; [reflexivity |]. split; [reflexivity |].
  exact (imagen_valida_needs_dot_space "foto. PNG" eq_refl).
Defined.
